(** * PCA9685 16-channel PWM driver: phase cycles, channel transactions, servo curves

    A shallow embedding of the driver's phase-cycle computation
    ([PCA9685::getPhaseCycle]), of the read-back decoding at the end of
    [PCA9685::getChannelPWM], of the bus transactions issued by
    [PCA9685::setChannelsPWM] and [PCA9685::getChannelPWM], and of the
    servo evaluator [PCA9685_ServoEval]; further the single channel
    writes, the register accessors, [init] and the address, frequency and
    clock settings built on them.

    Machine integers are values of [Z] with the wrap-around of the C++
    types written out.  The width of [int] (and of [int_fast16_t]) depends
    on the board, so the model is parameterised by a [Target]. *)

From Stdlib Require Import ZArith List Bool Lia.
Import ListNotations.
Local Open Scope Z_scope.

(** ** Machine integers *)

Module MachInt.

(** The two families of boards the library is built for: 8-bit AVR
    ([int] and [int_fast16_t] are 16 bits wide) and the 32-bit cores
    (SAM, ESP, Teensy: both are 32 bits wide). *)
Inductive Target : Type := AVR | ARM32.

Definition int_bits (t : Target) : Z :=
  match t with AVR => 16 | ARM32 => 32 end.

Definition int_max (t : Target) : Z := 2 ^ (int_bits t - 1) - 1.
Definition int_min (t : Target) : Z := - 2 ^ (int_bits t - 1).

(** Two's complement reduction to [bits] bits. *)
Definition swrap (bits x : Z) : Z :=
  (x + 2 ^ (bits - 1)) mod 2 ^ bits - 2 ^ (bits - 1).

(** A value stored in an [int] (equally an [int_fast16_t]) of the target.
    Signed overflow is undefined in C++; the model takes the two's
    complement result the supported compilers produce. *)
Definition sint (t : Target) (x : Z) : Z := swrap (int_bits t) x.

(** A value stored in a [uint16_t] and in a [uint8_t] ([byte]). *)
Definition u16 (x : Z) : Z := x mod 65536.
Definition u8 (x : Z) : Z := x mod 256.

(** The result of arithmetic on two [uint16_t] operands: on AVR
    [uint16_t] is [unsigned int], so the result is reduced modulo 2^16;
    on the 32-bit cores both operands are promoted to [int]. *)
Definition u16_arith (t : Target) (x : Z) : Z :=
  match t with AVR => u16 x | ARM32 => sint ARM32 x end.

Definition lowByte (w : Z) : Z := Z.land w 255.
Definition highByte (w : Z) : Z := u8 (Z.shiftr w 8).

End MachInt.
Import MachInt.

(** ** Constants of the driver *)

Definition PCA9685_LED0_REG : Z := 6.      (* 0x06 *)
Definition PCA9685_ALLLED_REG : Z := 250.  (* 0xFA *)
Definition PCA9685_PWM_FULL : Z := 4096.   (* 0x1000 *)
Definition PCA9685_PWM_MASK : Z := 4095.   (* 0x0FFF *)
Definition PCA9685_CHANNEL_COUNT : Z := 16.
Definition PCA9685_ALLLED_CHANNEL : Z := -1.
Definition PCA9685_PBLIN_STEPS : Z :=
  Z.quot PCA9685_PWM_FULL PCA9685_CHANNEL_COUNT.

(** The phase balancing schemes, as the [switch] of [getPhaseCycle] lists
    them. *)
Inductive PCA9685_PhaseBalancer : Type :=
| PCA9685_PhaseBalancer_None
| PCA9685_PhaseBalancer_Linear
| PCA9685_PhaseBalancer_Dynamic
| PCA9685_PhaseBalancer_Count
| PCA9685_PhaseBalancer_Undefined.

(** ** Phase cycles *)

(** [PCA9685::getPhaseCycle]: the pair (phaseBegin, phaseEnd) written for
    [pwmAmount] on [channel]. *)
Definition getPhaseCycle (t : Target) (_phaseBalancer : PCA9685_PhaseBalancer)
    (channel pwmAmount : Z) : Z * Z :=
  if pwmAmount =? 0 then
    (0, PCA9685_PWM_FULL)
  else if pwmAmount >=? PCA9685_PWM_FULL then
    (PCA9685_PWM_FULL, 0)
  else if channel =? PCA9685_ALLLED_CHANNEL then
    let phaseBegin := 0 in
    (phaseBegin, Z.land (phaseBegin + pwmAmount) PCA9685_PWM_MASK)
  else
    match _phaseBalancer with
    | PCA9685_PhaseBalancer_None
    | PCA9685_PhaseBalancer_Count
    | PCA9685_PhaseBalancer_Undefined =>
        let phaseBegin := 0 in
        (phaseBegin, Z.land (phaseBegin + pwmAmount) PCA9685_PWM_MASK)
    | PCA9685_PhaseBalancer_Linear =>
        let phaseBegin :=
          u16 (Z.max 0 (sint t (sint t (channel * PCA9685_PBLIN_STEPS)
                                - Z.shiftr pwmAmount 1))) in
        let phaseEnd :=
          u16 (Z.min (u16_arith t (PCA9685_PWM_FULL - 1))
                     (u16_arith t (phaseBegin + pwmAmount))) in
        let phaseBegin := u16 (u16_arith t (phaseEnd - pwmAmount)) in
        (phaseBegin, phaseEnd)
    | PCA9685_PhaseBalancer_Dynamic =>
        let phaseBegin := 0 in
        (phaseBegin, Z.land (phaseBegin + pwmAmount) PCA9685_PWM_MASK)
    end.

(** The decoding of a read-back pair at the end of
    [PCA9685::getChannelPWM] (datasheet section 7.3.3); [retVal] is a
    [uint16_t]. *)
Definition decodePhaseCycle (t : Target) (phaseBegin phaseEnd : Z) : Z :=
  if phaseEnd >=? PCA9685_PWM_FULL then 0
  else if phaseBegin >=? PCA9685_PWM_FULL then PCA9685_PWM_FULL
  else if phaseBegin <=? phaseEnd then
    u16 (u16_arith t (phaseEnd - phaseBegin))
  else
    u16 (u16_arith t (u16_arith t (phaseEnd + PCA9685_PWM_FULL) - phaseBegin)).

(** The four-branch reference decoding, in the words of the
    specification; [flagged] tells whether a phase value has its full
    flag set. *)
Definition decode_reference (flagged : Z -> bool) (phaseBegin phaseEnd : Z)
    : Z :=
  if flagged phaseEnd then 0
  else if flagged phaseBegin then 4096
  else if phaseBegin <=? phaseEnd then phaseEnd - phaseBegin
  else (phaseEnd + 4096) - phaseBegin.

(** The full flag of a phase value is its 13th bit. *)
Definition full_flag (phase : Z) : bool := Z.testbit phase 12.

(** The test of the source: the value reaches 4096. *)
Definition at_least_full (phase : Z) : bool := 4096 <=? phase.

(** A phase value of the data model: twelve bits plus the full flag. *)
Definition is_phase (x : Z) : Prop := 0 <= x < 8192.

(** ** The bus *)

(** The calls the driver makes on the two-wire bus, as a trace. *)
Inductive Event : Type :=
| EvBegin (addr : Z)
| EvWrite (data : Z)
| EvEnd (err : Z)
| EvRequest (addr len got : Z)
| EvRead (data : Z).

(** The hardware [TwoWire] object as the driver sees it: the trace of the
    calls made so far (oldest first), the results the coming
    [endTransmission] calls return, the bytes the device sends on the
    coming [requestFrom] calls, and the receive buffer. *)
Record TwoWire : Type := mkWire {
  wire_log : list Event;
  wire_ends : list Z;
  wire_replies : list (list Z);
  wire_rx : list Z
}.

Record PCA9685 : Type := mkPCA9685 {
  _i2cAddr : Z;
  _i2cWire : TwoWire;
  _phaseBalancer : PCA9685_PhaseBalancer;
  _isProxyAddresser : bool;
  _lastI2CError : Z
}.

Definition with_wire (s : PCA9685) (w : TwoWire) : PCA9685 :=
  mkPCA9685 (_i2cAddr s) w (_phaseBalancer s) (_isProxyAddresser s)
            (_lastI2CError s).

Definition with_error (s : PCA9685) (e : Z) : PCA9685 :=
  mkPCA9685 (_i2cAddr s) (_i2cWire s) (_phaseBalancer s) (_isProxyAddresser s) e.

Definition emit (w : TwoWire) (ev : Event) : TwoWire :=
  mkWire (wire_log w ++ [ev]) (wire_ends w) (wire_replies w) (wire_rx w).

(** [PCA9685::i2cWire_beginTransmission] (hardware i2c build). *)
Definition i2cWire_beginTransmission (s : PCA9685) (addr : Z) : PCA9685 :=
  with_wire (with_error s 0) (emit (_i2cWire s) (EvBegin addr)).

(** [PCA9685::i2cWire_endTransmission]: the transport's result becomes the
    last error. *)
Definition i2cWire_endTransmission (s : PCA9685) : Z * PCA9685 :=
  let w := _i2cWire s in
  let err := u8 (hd 0 (wire_ends w)) in
  (err,
   with_wire (with_error s err)
     (mkWire (wire_log w ++ [EvEnd err]) (tl (wire_ends w))
             (wire_replies w) (wire_rx w))).

(** [PCA9685::i2cWire_requestFrom]: the transport delivers at most [len]
    bytes of the device's reply and returns how many arrived. *)
Definition i2cWire_requestFrom (s : PCA9685) (addr len : Z) : Z * PCA9685 :=
  let w := _i2cWire s in
  let rx := firstn (Z.to_nat len) (hd [] (wire_replies w)) in
  let got := u8 (Z.of_nat (length rx)) in
  (got,
   with_wire s
     (mkWire (wire_log w ++ [EvRequest addr len got]) (wire_ends w)
             (tl (wire_replies w)) rx)).

(** [PCA9685::i2cWire_write]. *)
Definition i2cWire_write (s : PCA9685) (data : Z) : PCA9685 :=
  with_wire s (emit (_i2cWire s) (EvWrite data)).

(** [PCA9685::i2cWire_read]: [read() & 0xFF], where [read()] is [-1] on an
    empty buffer. *)
Definition i2cWire_read (s : PCA9685) : Z * PCA9685 :=
  let w := _i2cWire s in
  let data := Z.land (hd (-1) (wire_rx w)) 255 in
  (data,
   with_wire s
     (mkWire (wire_log w ++ [EvRead data]) (wire_ends w) (wire_replies w)
             (tl (wire_rx w)))).

(** ** Channel transactions *)

(** [PCA9685::writeChannelBegin]; [regAddress] is a [byte], and the
    reduction to a byte absorbs any wrap of the [int] product. *)
Definition writeChannelBegin (s : PCA9685) (channel : Z) : PCA9685 :=
  let regAddress :=
    if negb (channel =? PCA9685_ALLLED_CHANNEL)
    then u8 (PCA9685_LED0_REG + channel * 4)
    else PCA9685_ALLLED_REG in
  i2cWire_write (i2cWire_beginTransmission s (_i2cAddr s)) regAddress.

(** [PCA9685::writeChannelPWM], without [PCA9685_SWAP_PWM_BEG_END_REGS]. *)
Definition writeChannelPWM (s : PCA9685) (phaseBegin phaseEnd : Z) : PCA9685 :=
  let s := i2cWire_write s (lowByte phaseBegin) in
  let s := i2cWire_write s (highByte phaseBegin) in
  let s := i2cWire_write s (lowByte phaseEnd) in
  i2cWire_write s (highByte phaseEnd).

(** [PCA9685::writeChannelEnd]. *)
Definition writeChannelEnd (s : PCA9685) : PCA9685 :=
  snd (i2cWire_endTransmission s).

(** The clipping of [numChannels] at the head of
    [PCA9685::setChannelsPWM]. *)
Definition clip_numChannels (t : Target) (begChannel numChannels : Z) : Z :=
  if sint t (begChannel + numChannels) >? 16
  then sint t (numChannels - sint t (sint t (begChannel + numChannels) - 16))
  else numChannels.

(** The inner loop of [PCA9685::setChannelsPWM]:
    [while (maxChannels-- > 0)].  [pwmAmounts] is the caller's array from
    the current pointer on; reading past its end is undefined in the
    source and yields 0 here. *)
Fixpoint setChannelsPWM_inner (t : Target) (maxChannels : nat) (s : PCA9685)
    (begChannel numChannels : Z) (pwmAmounts : list Z)
    : PCA9685 * Z * Z * list Z :=
  match maxChannels with
  | O => (s, begChannel, numChannels, pwmAmounts)
  | S maxChannels' =>
      let '(phaseBegin, phaseEnd) :=
        getPhaseCycle t (_phaseBalancer s) begChannel (hd 0 pwmAmounts) in
      let s := writeChannelPWM s phaseBegin phaseEnd in
      setChannelsPWM_inner t maxChannels' s (sint t (begChannel + 1))
        (numChannels - 1) (tl pwmAmounts)
  end.

(** The outer loop of [PCA9685::setChannelsPWM], one transaction per turn.
    [fuel] bounds the number of transactions; [None] means the loop has
    not returned within that bound. *)
Fixpoint setChannelsPWM_loop (t : Target) (PCA9685_I2C_BUFFER_LENGTH : Z)
    (fuel : nat) (s : PCA9685) (begChannel numChannels : Z)
    (pwmAmounts : list Z) : option PCA9685 :=
  if numChannels >? 0 then
    match fuel with
    | O => None
    | S fuel' =>
        let s := writeChannelBegin s begChannel in
        let maxChannels :=
          Z.min numChannels (Z.quot (PCA9685_I2C_BUFFER_LENGTH - 1) 4) in
        let '(s, begChannel, numChannels, pwmAmounts) :=
          setChannelsPWM_inner t (Z.to_nat maxChannels) s begChannel
            numChannels pwmAmounts in
        let s := writeChannelEnd s in
        if negb (_lastI2CError s =? 0) then Some s
        else setChannelsPWM_loop t PCA9685_I2C_BUFFER_LENGTH fuel' s
               begChannel numChannels pwmAmounts
    end
  else Some s.

(** [PCA9685::setChannelsPWM] (hardware i2c build). *)
Definition setChannelsPWM (t : Target) (PCA9685_I2C_BUFFER_LENGTH : Z)
    (fuel : nat) (s : PCA9685) (begChannel numChannels : Z)
    (pwmAmounts : list Z) : option PCA9685 :=
  if (begChannel <? 0) || (begChannel >? 15) || (numChannels <? 0) then Some s
  else
    let numChannels := clip_numChannels t begChannel numChannels in
    setChannelsPWM_loop t PCA9685_I2C_BUFFER_LENGTH fuel s begChannel
      numChannels pwmAmounts.

(** [while (bytesRead-- > 0) i2cWire_read();] *)
Fixpoint drain (bytesRead : nat) (s : PCA9685) : PCA9685 :=
  match bytesRead with
  | O => s
  | S n => drain n (snd (i2cWire_read s))
  end.

(** [PCA9685::getChannelPWM] (hardware i2c build, registers not swapped):
    the returned duty value and the device object afterwards. *)
Definition getChannelPWM (t : Target) (s : PCA9685) (channel : Z)
    : Z * PCA9685 :=
  if (channel <? 0) || (channel >? 15) || _isProxyAddresser s then (0, s)
  else
    let regAddress := u8 (PCA9685_LED0_REG + Z.shiftl channel 2) in
    let s := i2cWire_beginTransmission s (_i2cAddr s) in
    let s := i2cWire_write s regAddress in
    let '(err, s) := i2cWire_endTransmission s in
    if negb (err =? 0) then (0, s)
    else
      let '(bytesRead, s) := i2cWire_requestFrom s (u8 (_i2cAddr s)) 4 in
      if negb (bytesRead =? 4) then
        let s := drain (Z.to_nat bytesRead) s in
        (0, with_error s 4)
      else
        let '(b0, s) := i2cWire_read s in
        let '(b1, s) := i2cWire_read s in
        let phaseBegin := u16 (Z.lor b0 (Z.shiftl b1 8)) in
        let '(b2, s) := i2cWire_read s in
        let '(b3, s) := i2cWire_read s in
        let phaseEnd := u16 (Z.lor b2 (Z.shiftl b3 8)) in
        (decodePhaseCycle t phaseBegin phaseEnd, s).

(** ** Reference description of a multi-channel write *)

(** The bus traffic of [setChannelsPWM] in the words of the
    specification: the request is cut into chunks of at most
    [(buffer length - 1) / 4] channels, every chunk is one transaction
    (opened, register address, four bytes per channel, closed), and the
    first failing close ends the call. *)

Definition channels_per_transaction (bufferLength : Z) : Z :=
  (bufferLength - 1) / 4.

(** The chunks [(first channel, number of channels)] of a request for
    [count] channels from channel [first] on, [per] channels at most in
    each: chunk [j] starts at channel [first + j * per]. *)
Definition chunk_plan (per first count : Z) : list (Z * Z) :=
  map (fun j : nat =>
         (first + Z.of_nat j * per, Z.min per (count - Z.of_nat j * per)))
      (seq 0 (Z.to_nat ((count + per - 1) / per))).

(** The four register bytes of one channel: phaseBegin low, high,
    phaseEnd low, high. *)
Definition channel_bytes (t : Target) (pb : PCA9685_PhaseBalancer)
    (channel amount : Z) : list Event :=
  let '(phaseBegin, phaseEnd) := getPhaseCycle t pb channel amount in
  [EvWrite (lowByte phaseBegin); EvWrite (highByte phaseBegin);
   EvWrite (lowByte phaseEnd); EvWrite (highByte phaseEnd)].

(** The register bytes of [count] consecutive channels from [first] on;
    [value_of] gives the duty value requested for a channel. *)
Fixpoint payload (t : Target) (pb : PCA9685_PhaseBalancer)
    (value_of : Z -> Z) (first : Z) (count : nat) : list Event :=
  match count with
  | O => []
  | S count' =>
      channel_bytes t pb first (value_of first)
      ++ payload t pb value_of (first + 1) count'
  end.

(** One transaction: opened, addressed at the register of the chunk's
    first channel, the chunk's bytes, closed with result [err]. *)
Definition transaction (t : Target) (pb : PCA9685_PhaseBalancer) (addr : Z)
    (value_of : Z -> Z) (chunk : Z * Z) (err : Z) : list Event :=
  [EvBegin addr; EvWrite (PCA9685_LED0_REG + 4 * fst chunk)]
  ++ payload t pb value_of (fst chunk) (Z.to_nat (snd chunk))
  ++ [EvEnd err].

(** The transactions of the chunks in order, up to and including the
    first one whose close reports an error; [ends] are the results the
    closes report. *)
Fixpoint bus_trace (t : Target) (pb : PCA9685_PhaseBalancer) (addr : Z)
    (value_of : Z -> Z) (chunks : list (Z * Z)) (ends : list Z)
    : list Event :=
  match chunks with
  | [] => []
  | chunk :: rest =>
      let err := u8 (hd 0 ends) in
      transaction t pb addr value_of chunk err
      ++ (if err =? 0 then bus_trace t pb addr value_of rest (tl ends)
          else [])
  end.

(** How many of the chunks get a transaction under the results [ends]. *)
Fixpoint issued (chunks : list (Z * Z)) (ends : list Z) : nat :=
  match chunks with
  | [] => O
  | _ :: rest =>
      if u8 (hd 0 ends) =? 0 then S (issued rest (tl ends)) else 1%nat
  end.

(** The duty value the caller's array holds for [channel], the array
    starting at channel [base]. *)
Definition value_at (base : Z) (pwmAmounts : list Z) (channel : Z) : Z :=
  nth (Z.to_nat (channel - base)) pwmAmounts 0.

(** Channels whose registers a trace writes: four data bytes each, one
    address byte per transaction. *)
Definition is_write (ev : Event) : bool :=
  match ev with EvWrite _ => true | _ => false end.

Definition is_begin (ev : Event) : bool :=
  match ev with EvBegin _ => true | _ => false end.

Definition channels_written (trace : list Event) : Z :=
  (Z.of_nat (length (filter is_write trace))
   - Z.of_nat (length (filter is_begin trace))) / 4.

(** The device object with more calls on its bus trace. *)
Definition append_log (s : PCA9685) (evs : list Event) : PCA9685 :=
  let w := _i2cWire s in
  with_wire s
    (mkWire (wire_log w ++ evs) (wire_ends w) (wire_replies w) (wire_rx w)).

(** Chunks that follow each other without gap from channel [first] on. *)
Fixpoint contiguous (first : Z) (chunks : list (Z * Z)) : Prop :=
  match chunks with
  | [] => True
  | chunk :: rest => fst chunk = first /\ contiguous (first + snd chunk) rest
  end.

(** The channels the chunks hold together. *)
Definition total_channels (chunks : list (Z * Z)) : Z :=
  fold_right (fun chunk acc => snd chunk + acc) 0 chunks.

(** A device at address 0x40 with the linear scheme, on a bus whose
    closes report [ends] and whose device answers with [replies]. *)
Definition sample_device (ends : list Z) (replies : list (list Z)) : PCA9685 :=
  mkPCA9685 64 (mkWire [] ends replies []) PCA9685_PhaseBalancer_Linear false 0.

(** ** Single precision arithmetic *)

(** The [float] of the source is IEEE 754 binary32.  A finite value is a
    dyadic rational [mant * 2 ^ expo], kept with an odd mantissa (or as
    [0 * 2 ^ 0]); every operation is the exact result rounded to a 24 bit
    significand, to nearest with ties to even, with gradual underflow.
    Infinities, NaN and the sign of zero are not represented: the
    computations of the servo evaluator stay far inside the finite range
    and never divide by zero. *)
Module F32.

Record float : Type := mk { mant : Z; expo : Z }.

Definition zero : float := mk 0 0.

(** Canonical form: the trailing zero bits of the mantissa move into the
    exponent. *)
Definition norm (m e : Z) : float :=
  if m =? 0 then zero
  else
    let a := Z.abs m in
    let k := Z.log2 (Z.land a (- a)) in
    mk (m / 2 ^ k) (e + k).

(** The binary32 value nearest to [n / d * 2 ^ e0], for [0 < n], [0 < d]. *)
Definition round_pos (n d e0 : Z) : float :=
  let k := Z.log2 n - Z.log2 d in
  let k :=
    if n * 2 ^ Z.max 0 (- k) <? d * 2 ^ Z.max 0 k then k - 1 else k in
  let e := Z.max (k - 23) (-149 - e0) in
  let N := n * 2 ^ Z.max 0 (- e) in
  let D := d * 2 ^ Z.max 0 e in
  let q := N / D in
  let r := N mod D in
  let m :=
    if 2 * r <? D then q
    else if D <? 2 * r then q + 1
    else if Z.even q then q else q + 1 in
  norm m (e + e0).

(** The binary32 value nearest to [n / d * 2 ^ e0], for [d <> 0]. *)
Definition round (n d e0 : Z) : float :=
  let n' := if d <? 0 then - n else n in
  let d' := Z.abs d in
  if (n' =? 0) || (d' =? 0) then zero
  else if n' <? 0 then
    let r := round_pos (- n') d' e0 in mk (- mant r) (expo r)
  else round_pos n' d' e0.

(** Conversion of an integer ([(float)i]). *)
Definition of_Z (i : Z) : float := round i 1 0.

Definition add (x y : float) : float :=
  let e := Z.min (expo x) (expo y) in
  round (mant x * 2 ^ (expo x - e) + mant y * 2 ^ (expo y - e)) 1 e.

Definition opp (x : float) : float := mk (- mant x) (expo x).

Definition sub (x y : float) : float := add x (opp y).

Definition mul (x y : float) : float :=
  round (mant x * mant y) 1 (expo x + expo y).

Definition div (x y : float) : float :=
  round (mant x) (mant y) (expo x - expo y).

(** [x < y] and [x <= y]. *)
Definition ltb (x y : float) : bool :=
  let e := Z.min (expo x) (expo y) in
  mant x * 2 ^ (expo x - e) <? mant y * 2 ^ (expo y - e).

Definition leb (x y : float) : bool := negb (ltb y x).

(** [roundf]: the nearest integer, halves away from zero. *)
Definition roundf_Z (x : float) : Z :=
  if 0 <=? expo x then mant x * 2 ^ expo x
  else
    let d := 2 ^ (- expo x) in
    let a := Z.abs (mant x) in
    let q := if 2 * (a mod d) <? d then a / d else a / d + 1 in
    if mant x <? 0 then - q else q.

Definition roundf (x : float) : float := of_Z (roundf_Z x).

(** The integer part, for the conversion of a [float] to an integer
    type. *)
Definition trunc (x : float) : Z :=
  if 0 <=? expo x then mant x * 2 ^ expo x
  else Z.quot (mant x) (2 ^ (- expo x)).

End F32.

(** ** The servo evaluator *)

Record PCA9685_ServoEval : Type := mkServoEval {
  _coeff : list F32.float;
  _isCSpline : bool
}.

(** The three point constructor
    [PCA9685_ServoEval(minPWMAmount, midPWMAmount, maxPWMAmount)].  The
    two [for] loops of the source run for [i = 1] and for [i = 1, 0]; they
    are written out with the array cells as names. *)
Definition ServoEval3 (minPWMAmount midPWMAmount maxPWMAmount : Z)
    : PCA9685_ServoEval :=
  let minPWMAmount := Z.min (Z.max minPWMAmount 0) PCA9685_PWM_FULL in
  let midPWMAmount := Z.min (Z.max midPWMAmount minPWMAmount) PCA9685_PWM_FULL in
  let maxPWMAmount := Z.min (Z.max maxPWMAmount midPWMAmount) PCA9685_PWM_FULL in
  let fl := F32.of_Z in
  if negb (maxPWMAmount - midPWMAmount =? midPWMAmount - minPWMAmount) then
    let x0 := fl 0 in let x1 := fl 90 in let x2 := fl 180 in
    let y0 := fl minPWMAmount in
    let y1 := fl midPWMAmount in
    let y2 := fl maxPWMAmount in
    let h0 := F32.sub x1 x0 in
    let u0 := fl 0 in
    let z0 := fl 0 in
    let c2 := fl 0 in
    (* for (int i = 1; i < 2; ++i) *)
    let h1 := F32.sub x2 x1 in
    let l0 := F32.sub (F32.mul (fl 2) (F32.sub x2 x0)) (F32.mul h0 u0) in
    let u1 := F32.div h1 l0 in
    let a0 := F32.sub (F32.mul (F32.div (fl 3) h1) (F32.sub y2 y1))
                      (F32.mul (F32.div (fl 3) h0) (F32.sub y1 y0)) in
    let z1 := F32.div (F32.sub a0 (F32.mul h0 z0)) l0 in
    (* for (int i = 1; i >= 0; --i), i = 1 *)
    let c1 := F32.sub z1 (F32.mul u1 c2) in
    let b1 := F32.sub (F32.div (F32.sub y2 y1) h1)
                (F32.div (F32.mul h1 (F32.add c2 (F32.mul (fl 2) c1))) (fl 3)) in
    let d1 := F32.div (F32.sub c2 c1) (F32.mul (fl 3) h1) in
    (* i = 0 *)
    let c0 := F32.sub z0 (F32.mul u0 c1) in
    let b0 := F32.sub (F32.div (F32.sub y1 y0) h0)
                (F32.div (F32.mul h0 (F32.add c1 (F32.mul (fl 2) c0))) (fl 3)) in
    let d0 := F32.div (F32.sub c1 c0) (F32.mul (fl 3) h0) in
    mkServoEval [y0; b0; c0; d0; y1; b1; c1; d1] true
  else
    mkServoEval
      [fl minPWMAmount; F32.div (fl (maxPWMAmount - minPWMAmount)) (fl 180)]
      false.

(** [_coeff[i]]. *)
Definition coeff (sv : PCA9685_ServoEval) (i : nat) : F32.float :=
  nth i (_coeff sv) F32.zero.

(** [PCA9685_ServoEval::pwmForAngle]. *)
Definition pwmForAngle (sv : PCA9685_ServoEval) (angle : F32.float) : Z :=
  let fl := F32.of_Z in
  let amt := F32.add angle (fl 90) in
  let angle :=
    if F32.ltb amt (fl 0) then fl 0
    else if F32.ltb (fl 180) amt then fl 180
    else amt in
  let retVal :=
    if negb (_isCSpline sv) then
      F32.add (coeff sv 0) (F32.mul (coeff sv 1) angle)
    else if F32.leb angle (fl 90) then
      F32.add
        (F32.add
           (F32.add (coeff sv 0) (F32.mul (coeff sv 1) angle))
           (F32.mul (F32.mul (coeff sv 2) angle) angle))
        (F32.mul (F32.mul (F32.mul (coeff sv 3) angle) angle) angle)
    else
      let angle := F32.sub angle (fl 90) in
      F32.add
        (F32.add
           (F32.add (coeff sv 4) (F32.mul (coeff sv 5) angle))
           (F32.mul (F32.mul (coeff sv 6) angle) angle))
        (F32.mul (F32.mul (F32.mul (coeff sv 7) angle) angle) angle) in
  u16 (Z.min (Z.max (u16 (F32.trunc (F32.roundf retVal))) 0) PCA9685_PWM_FULL).

(** [PCA9685_ServoEval::pwmForSpeed]. *)
Definition pwmForSpeed (sv : PCA9685_ServoEval) (speed : F32.float) : Z :=
  pwmForAngle sv (F32.mul speed (F32.of_Z 90)).

(** ** Single channel writes *)

(** [PCA9685::setChannelOn]. *)
Definition setChannelOn (s : PCA9685) (channel : Z) : PCA9685 :=
  if (channel <? 0) || (channel >? 15) then s
  else
    let s := writeChannelBegin s channel in
    let s := writeChannelPWM s PCA9685_PWM_FULL 0 in
    writeChannelEnd s.

(** [PCA9685::setChannelOff]. *)
Definition setChannelOff (s : PCA9685) (channel : Z) : PCA9685 :=
  if (channel <? 0) || (channel >? 15) then s
  else
    let s := writeChannelBegin s channel in
    let s := writeChannelPWM s 0 PCA9685_PWM_FULL in
    writeChannelEnd s.

(** [PCA9685::setChannelPWM]. *)
Definition setChannelPWM (t : Target) (s : PCA9685) (channel pwmAmount : Z)
    : PCA9685 :=
  if (channel <? 0) || (channel >? 15) then s
  else
    let s := writeChannelBegin s channel in
    let '(phaseBegin, phaseEnd) :=
      getPhaseCycle t (_phaseBalancer s) channel pwmAmount in
    let s := writeChannelPWM s phaseBegin phaseEnd in
    writeChannelEnd s.

(** [PCA9685::setAllChannelsPWM]. *)
Definition setAllChannelsPWM (t : Target) (s : PCA9685) (pwmAmount : Z)
    : PCA9685 :=
  let s := writeChannelBegin s PCA9685_ALLLED_CHANNEL in
  let '(phaseBegin, phaseEnd) :=
    getPhaseCycle t (_phaseBalancer s) PCA9685_ALLLED_CHANNEL pwmAmount in
  let s := writeChannelPWM s phaseBegin phaseEnd in
  writeChannelEnd s.

(** The longest run of byte writes between two other bus calls: the most
    bytes the driver queues in one transaction. *)
Fixpoint longest_burst (trace : list Event) (run best : nat) : nat :=
  match trace with
  | [] => Nat.max run best
  | EvWrite _ :: rest => longest_burst rest (S run) best
  | _ :: rest => longest_burst rest O (Nat.max run best)
  end.

(** ** Registers *)

Definition PCA9685_I2C_BASE_MODULE_ADDRESS : Z := 64.   (* 0x40 *)
Definition PCA9685_I2C_BASE_MODULE_ADRMASK : Z := 63.   (* 0x3F *)
Definition PCA9685_I2C_BASE_PROXY_ADDRESS : Z := 224.   (* 0xE0 *)
Definition PCA9685_I2C_BASE_PROXY_ADRMASK : Z := 254.   (* 0xFE *)

Definition PCA9685_MODE1_REG : Z := 0.
Definition PCA9685_MODE2_REG : Z := 1.
Definition PCA9685_SUBADR1_REG : Z := 2.
Definition PCA9685_SUBADR2_REG : Z := 3.
Definition PCA9685_SUBADR3_REG : Z := 4.
Definition PCA9685_ALLCALL_REG : Z := 5.
Definition PCA9685_PRESCALE_REG : Z := 254.             (* 0xFE *)

Definition PCA9685_MODE1_RESTART : Z := 128.            (* 0x80 *)
Definition PCA9685_MODE1_EXTCLK : Z := 64.              (* 0x40 *)
Definition PCA9685_MODE1_AUTOINC : Z := 32.             (* 0x20 *)
Definition PCA9685_MODE1_SLEEP : Z := 16.               (* 0x10 *)
Definition PCA9685_MODE1_SUBADR1 : Z := 8.
Definition PCA9685_MODE1_SUBADR2 : Z := 4.
Definition PCA9685_MODE1_SUBADR3 : Z := 2.
Definition PCA9685_MODE1_ALLCALL : Z := 1.

Definition PCA9685_MODE2_OUTDRV_TPOLE : Z := 4.
Definition PCA9685_MODE2_INVRT : Z := 16.               (* 0x10 *)
Definition PCA9685_MODE2_OUTNE_TPHIGH : Z := 1.
Definition PCA9685_MODE2_OUTNE_HIGHZ : Z := 2.
Definition PCA9685_MODE2_OCH_ONACK : Z := 8.

(** [PCA9685::writeRegister]; both arguments are bytes. *)
Definition writeRegister (s : PCA9685) (regAddress value : Z) : PCA9685 :=
  let s := i2cWire_beginTransmission s (_i2cAddr s) in
  let s := i2cWire_write s regAddress in
  let s := i2cWire_write s value in
  snd (i2cWire_endTransmission s).

(** [PCA9685::readRegister] (hardware i2c build). *)
Definition readRegister (s : PCA9685) (regAddress : Z) : Z * PCA9685 :=
  let s := i2cWire_beginTransmission s (_i2cAddr s) in
  let s := i2cWire_write s regAddress in
  let '(err, s) := i2cWire_endTransmission s in
  if negb (err =? 0) then (0, s)
  else
    let '(bytesRead, s) := i2cWire_requestFrom s (u8 (_i2cAddr s)) 1 in
    if negb (bytesRead =? 1) then
      let s := drain (Z.to_nat bytesRead) s in
      (0, with_error s 4)
    else i2cWire_read s.

(** ** Device configuration *)

(** The mode enumerations, as the [switch] statements of [init] list
    them. *)
Inductive PCA9685_OutputDriverMode : Type :=
| PCA9685_OutputDriverMode_OpenDrain
| PCA9685_OutputDriverMode_TotemPole
| PCA9685_OutputDriverMode_Count
| PCA9685_OutputDriverMode_Undefined.

Inductive PCA9685_OutputEnabledMode : Type :=
| PCA9685_OutputEnabledMode_Normal
| PCA9685_OutputEnabledMode_Inverted
| PCA9685_OutputEnabledMode_Count
| PCA9685_OutputEnabledMode_Undefined.

Inductive PCA9685_OutputDisabledMode : Type :=
| PCA9685_OutputDisabledMode_Low
| PCA9685_OutputDisabledMode_High
| PCA9685_OutputDisabledMode_Floating
| PCA9685_OutputDisabledMode_Count
| PCA9685_OutputDisabledMode_Undefined.

Inductive PCA9685_ChannelUpdateMode : Type :=
| PCA9685_ChannelUpdateMode_AfterStop
| PCA9685_ChannelUpdateMode_AfterAck
| PCA9685_ChannelUpdateMode_Count
| PCA9685_ChannelUpdateMode_Undefined.

(** The output mode members of the device object; together with a
    [PCA9685] record they make up the members the configuration calls
    use. *)
Record PCA9685_Modes : Type := mkModes {
  _driverMode : PCA9685_OutputDriverMode;
  _enabledMode : PCA9685_OutputEnabledMode;
  _disabledMode : PCA9685_OutputDisabledMode;
  _updateMode : PCA9685_ChannelUpdateMode
}.

Definition with_addr (s : PCA9685) (a : Z) : PCA9685 :=
  mkPCA9685 a (_i2cWire s) (_phaseBalancer s) (_isProxyAddresser s)
            (_lastI2CError s).

Definition with_phaseBalancer (s : PCA9685) (pb : PCA9685_PhaseBalancer)
    : PCA9685 :=
  mkPCA9685 (_i2cAddr s) (_i2cWire s) pb (_isProxyAddresser s)
            (_lastI2CError s).

Definition with_proxy (s : PCA9685) (b : bool) : PCA9685 :=
  mkPCA9685 (_i2cAddr s) (_i2cWire s) (_phaseBalancer s) b (_lastI2CError s).

(** The constructor [PCA9685::PCA9685(i2cAddress, i2cWire, i2cSpeed)]. *)
Definition PCA9685_new (i2cAddress : Z) (i2cWire : TwoWire)
    : PCA9685 * PCA9685_Modes :=
  (mkPCA9685 i2cAddress i2cWire PCA9685_PhaseBalancer_Undefined false 0,
   mkModes PCA9685_OutputDriverMode_Undefined
           PCA9685_OutputEnabledMode_Undefined
           PCA9685_OutputDisabledMode_Undefined
           PCA9685_ChannelUpdateMode_Undefined).

(** [PCA9685::getMode2Value]. *)
Definition getMode2Value (m : PCA9685_Modes) : Z :=
  let mode2Val := 0 in
  let mode2Val :=
    match _driverMode m with
    | PCA9685_OutputDriverMode_TotemPole =>
        Z.lor mode2Val PCA9685_MODE2_OUTDRV_TPOLE
    | _ => mode2Val
    end in
  let mode2Val :=
    match _enabledMode m with
    | PCA9685_OutputEnabledMode_Inverted =>
        Z.lor mode2Val PCA9685_MODE2_INVRT
    | _ => mode2Val
    end in
  let mode2Val :=
    match _disabledMode m with
    | PCA9685_OutputDisabledMode_High =>
        Z.lor mode2Val PCA9685_MODE2_OUTNE_TPHIGH
    | PCA9685_OutputDisabledMode_Floating =>
        Z.lor mode2Val PCA9685_MODE2_OUTNE_HIGHZ
    | _ => mode2Val
    end in
  let mode2Val :=
    match _updateMode m with
    | PCA9685_ChannelUpdateMode_AfterAck =>
        Z.lor mode2Val PCA9685_MODE2_OCH_ONACK
    | _ => mode2Val
    end in
  mode2Val.

(** The combination [init] asserts against. *)
Definition unsupported_combination (driverMode : PCA9685_OutputDriverMode)
    (disabledMode : PCA9685_OutputDisabledMode) : bool :=
  match driverMode, disabledMode with
  | PCA9685_OutputDriverMode_OpenDrain, PCA9685_OutputDisabledMode_High => true
  | _, _ => false
  end.

(** [PCA9685::init]; [None] is the failed [assert]. *)
Definition init (s : PCA9685) (m : PCA9685_Modes)
    (driverMode : PCA9685_OutputDriverMode)
    (enabledMode : PCA9685_OutputEnabledMode)
    (disabledMode : PCA9685_OutputDisabledMode)
    (updateMode : PCA9685_ChannelUpdateMode)
    (phaseBalancer : PCA9685_PhaseBalancer)
    : option (PCA9685 * PCA9685_Modes) :=
  if _isProxyAddresser s then Some (s, m)
  else
    let s :=
      with_addr s
        (u8 (Z.lor PCA9685_I2C_BASE_MODULE_ADDRESS
                   (Z.land (_i2cAddr s) PCA9685_I2C_BASE_MODULE_ADRMASK))) in
    let m := mkModes driverMode enabledMode disabledMode updateMode in
    let s := with_phaseBalancer s phaseBalancer in
    if unsupported_combination (_driverMode m) (_disabledMode m) then None
    else
      let mode2Val := getMode2Value m in
      let s :=
        writeRegister s PCA9685_MODE1_REG
          (Z.lor PCA9685_MODE1_RESTART PCA9685_MODE1_AUTOINC) in
      let s := writeRegister s PCA9685_MODE2_REG mode2Val in
      Some (s, m).

(** [PCA9685::initAsProxyAddresser]. *)
Definition initAsProxyAddresser (s : PCA9685) (m : PCA9685_Modes)
    : PCA9685 * PCA9685_Modes :=
  match _driverMode m with
  | PCA9685_OutputDriverMode_Undefined =>
      let s :=
        with_addr s
          (u8 (Z.lor PCA9685_I2C_BASE_PROXY_ADDRESS
                     (Z.land (_i2cAddr s) PCA9685_I2C_BASE_PROXY_ADRMASK))) in
      (with_proxy s true, m)
  | _ => (s, m)
  end.

(** ** Sub-addresses and the all-call address *)

(** The common body of [enableAllCallAddress] and [enableSub1Address] to
    [enableSub3Address], which differ in the address register and the
    MODE1 bit only. *)
Definition enable_address (addrReg mode1Bit : Z) (s : PCA9685)
    (i2cAddressArg : Z) : PCA9685 :=
  if _isProxyAddresser s then s
  else
    let i2cAddress :=
      u8 (Z.lor PCA9685_I2C_BASE_PROXY_ADDRESS
                (Z.land i2cAddressArg PCA9685_I2C_BASE_PROXY_ADRMASK)) in
    let s := writeRegister s addrReg i2cAddress in
    let '(mode1Reg, s) := readRegister s PCA9685_MODE1_REG in
    writeRegister s PCA9685_MODE1_REG (u8 (Z.lor mode1Reg mode1Bit)).

Definition enableAllCallAddress : PCA9685 -> Z -> PCA9685 :=
  enable_address PCA9685_ALLCALL_REG PCA9685_MODE1_ALLCALL.
Definition enableSub1Address : PCA9685 -> Z -> PCA9685 :=
  enable_address PCA9685_SUBADR1_REG PCA9685_MODE1_SUBADR1.
Definition enableSub2Address : PCA9685 -> Z -> PCA9685 :=
  enable_address PCA9685_SUBADR2_REG PCA9685_MODE1_SUBADR2.
Definition enableSub3Address : PCA9685 -> Z -> PCA9685 :=
  enable_address PCA9685_SUBADR3_REG PCA9685_MODE1_SUBADR3.

(** The common body of [disableAllCallAddress] and [disableSub1Address]
    to [disableSub3Address]: [mode1Reg &= ~bit]. *)
Definition disable_address (mode1Bit : Z) (s : PCA9685) : PCA9685 :=
  if _isProxyAddresser s then s
  else
    let '(mode1Reg, s) := readRegister s PCA9685_MODE1_REG in
    writeRegister s PCA9685_MODE1_REG
      (u8 (Z.land mode1Reg (Z.lnot mode1Bit))).

Definition disableAllCallAddress : PCA9685 -> PCA9685 :=
  disable_address PCA9685_MODE1_ALLCALL.
Definition disableSub1Address : PCA9685 -> PCA9685 :=
  disable_address PCA9685_MODE1_SUBADR1.
Definition disableSub2Address : PCA9685 -> PCA9685 :=
  disable_address PCA9685_MODE1_SUBADR2.
Definition disableSub3Address : PCA9685 -> PCA9685 :=
  disable_address PCA9685_MODE1_SUBADR3.

(** ** PWM frequency and clock *)

(** The prescaler value [setPWMFrequency] computes: single precision
    arithmetic, conversion to [int] (undefined in the source when the
    value does not fit; wrapped here), then the two clamps. *)
Definition preScalerVal_of (t : Target) (pwmFrequency : F32.float) : Z :=
  let preScalerVal :=
    sint t
      (F32.trunc
         (F32.sub
            (F32.div (F32.of_Z 25000000)
                     (F32.mul (F32.of_Z 4096) pwmFrequency))
            (F32.of_Z 1))) in
  let preScalerVal := if preScalerVal >? 255 then 255 else preScalerVal in
  let preScalerVal := if preScalerVal <? 3 then 3 else preScalerVal in
  preScalerVal.

(** [PCA9685::setPWMFrequency]; the delay callback at its end does not
    touch the device object or the bus. *)
Definition setPWMFrequency (t : Target) (s : PCA9685)
    (pwmFrequency : F32.float) : PCA9685 :=
  if F32.ltb pwmFrequency (F32.of_Z 0) || _isProxyAddresser s then s
  else
    let preScalerVal := preScalerVal_of t pwmFrequency in
    let '(mode1Reg, s) := readRegister s PCA9685_MODE1_REG in
    let mode1Reg :=
      u8 (Z.lor (Z.land mode1Reg (Z.lnot PCA9685_MODE1_RESTART))
                PCA9685_MODE1_SLEEP) in
    let s := writeRegister s PCA9685_MODE1_REG mode1Reg in
    let s := writeRegister s PCA9685_PRESCALE_REG (u8 preScalerVal) in
    let mode1Reg :=
      u8 (Z.lor (Z.land mode1Reg (Z.lnot PCA9685_MODE1_SLEEP))
                PCA9685_MODE1_RESTART) in
    writeRegister s PCA9685_MODE1_REG mode1Reg.

(** [PCA9685::setPWMFreqServo] and [PCA9685::setPWMFreqLED]. *)
Definition setPWMFreqServo (t : Target) (s : PCA9685) : PCA9685 :=
  setPWMFrequency t s (F32.of_Z 50).

Definition setPWMFreqLED (t : Target) (s : PCA9685) : PCA9685 :=
  setPWMFrequency t s (F32.of_Z 60).

(** [PCA9685::enableExtClockLine]; the delay callback at its end does
    not touch the device object or the bus. *)
Definition enableExtClockLine (s : PCA9685) : PCA9685 :=
  let '(mode1Reg, s) := readRegister s PCA9685_MODE1_REG in
  let mode1Reg :=
    u8 (Z.lor (Z.land mode1Reg (Z.lnot PCA9685_MODE1_RESTART))
              PCA9685_MODE1_SLEEP) in
  let s := writeRegister s PCA9685_MODE1_REG mode1Reg in
  let mode1Reg := u8 (Z.lor mode1Reg PCA9685_MODE1_EXTCLK) in
  let s := writeRegister s PCA9685_MODE1_REG mode1Reg in
  let mode1Reg :=
    u8 (Z.lor (Z.land mode1Reg (Z.lnot PCA9685_MODE1_SLEEP))
              PCA9685_MODE1_RESTART) in
  writeRegister s PCA9685_MODE1_REG mode1Reg.

(** ** The two point servo evaluator *)

(** The constructor [PCA9685_ServoEval(minPWMAmount, maxPWMAmount)]. *)
Definition ServoEval2 (minPWMAmount maxPWMAmount : Z) : PCA9685_ServoEval :=
  let minPWMAmount := Z.min (Z.max minPWMAmount 0) PCA9685_PWM_FULL in
  let maxPWMAmount := Z.min (Z.max maxPWMAmount minPWMAmount) PCA9685_PWM_FULL in
  mkServoEval
    [F32.of_Z minPWMAmount;
     F32.div (F32.of_Z (maxPWMAmount - minPWMAmount)) (F32.of_Z 180)]
    false.

(** ** Observers for traces and MODE2 *)

(** The data bytes a trace writes, in order. *)
Fixpoint written_bytes (trace : list Event) : list Z :=
  match trace with
  | [] => []
  | EvWrite data :: rest => data :: written_bytes rest
  | _ :: rest => written_bytes rest
  end.

(** The bus calls made between two states of a device object. *)
Definition new_events (before after : PCA9685) : list Event :=
  skipn (length (wire_log (_i2cWire before))) (wire_log (_i2cWire after)).

(** The output modes a MODE2 register value stands for (the bits
    [printModuleInfo] lists). *)
Definition modes_of_mode2 (mode2Reg : Z) : PCA9685_Modes :=
  mkModes
    (if Z.testbit mode2Reg 2 then PCA9685_OutputDriverMode_TotemPole
     else PCA9685_OutputDriverMode_OpenDrain)
    (if Z.testbit mode2Reg 4 then PCA9685_OutputEnabledMode_Inverted
     else PCA9685_OutputEnabledMode_Normal)
    (if Z.testbit mode2Reg 0 then PCA9685_OutputDisabledMode_High
     else if Z.testbit mode2Reg 1 then PCA9685_OutputDisabledMode_Floating
     else PCA9685_OutputDisabledMode_Low)
    (if Z.testbit mode2Reg 3 then PCA9685_ChannelUpdateMode_AfterAck
     else PCA9685_ChannelUpdateMode_AfterStop).

(** Modes that are proper settings, not the [Count] or [Undefined]
    markers of the enumerations. *)
Definition modes_defined (m : PCA9685_Modes) : bool :=
  match _driverMode m with
  | PCA9685_OutputDriverMode_OpenDrain
  | PCA9685_OutputDriverMode_TotemPole => true
  | _ => false
  end
  && match _enabledMode m with
     | PCA9685_OutputEnabledMode_Normal
     | PCA9685_OutputEnabledMode_Inverted => true
     | _ => false
     end
  && match _disabledMode m with
     | PCA9685_OutputDisabledMode_Low
     | PCA9685_OutputDisabledMode_High
     | PCA9685_OutputDisabledMode_Floating => true
     | _ => false
     end
  && match _updateMode m with
     | PCA9685_ChannelUpdateMode_AfterStop
     | PCA9685_ChannelUpdateMode_AfterAck => true
     | _ => false
     end.

(** * Properties *)

(** ** Machine integer facts *)

Lemma sint_range (t : Target) (x : Z) : int_min t <= sint t x <= int_max t.
Proof.
  unfold sint, swrap, int_min, int_max.
  destruct t; cbn [int_bits];
    [ change (2 ^ (16 - 1)) with 32768; change (2 ^ 16) with 65536
    | change (2 ^ (32 - 1)) with 2147483648; change (2 ^ 32) with 4294967296 ];
    match goal with
    | |- context [ ?a mod ?m ] =>
        pose proof (Z.mod_pos_bound a m ltac:(lia))
    end; lia.
Qed.

Lemma sint_small (t : Target) (x : Z) :
  int_min t <= x <= int_max t -> sint t x = x.
Proof.
  unfold sint, swrap, int_min, int_max.
  destruct t; cbn [int_bits];
    [ change (2 ^ (16 - 1)) with 32768; change (2 ^ 16) with 65536
    | change (2 ^ (32 - 1)) with 2147483648; change (2 ^ 32) with 4294967296 ];
    intros H; rewrite Z.mod_small by lia; lia.
Qed.

Lemma int_max_ge (t : Target) : 32767 <= int_max t.
Proof. destruct t; vm_compute; discriminate. Qed.

Lemma int_min_le (t : Target) : int_min t <= -32768.
Proof. destruct t; vm_compute; discriminate. Qed.

Lemma sint_16 (t : Target) (x : Z) : -32768 <= x <= 32767 -> sint t x = x.
Proof.
  intros H. apply sint_small.
  pose proof (int_max_ge t). pose proof (int_min_le t). lia.
Qed.

Lemma u16_small (x : Z) : 0 <= x < 65536 -> u16 x = x.
Proof. intros H. unfold u16. apply Z.mod_small. exact H. Qed.

Lemma u16_range (x : Z) : 0 <= u16 x < 65536.
Proof. unfold u16. apply Z.mod_pos_bound. lia. Qed.

Lemma u8_small (x : Z) : 0 <= x < 256 -> u8 x = x.
Proof. intros H. unfold u8. apply Z.mod_small. exact H. Qed.

Lemma u16_arith_small (t : Target) (x : Z) :
  0 <= x < 65536 -> u16_arith t x = x.
Proof.
  intros H. destruct t; cbn [u16_arith].
  - apply u16_small; exact H.
  - apply sint_small. change (int_min ARM32) with (-2147483648).
    change (int_max ARM32) with 2147483647. lia.
Qed.

Lemma land_mask (x : Z) : 0 <= x < 4096 -> Z.land x PCA9685_PWM_MASK = x.
Proof.
  intros H. change PCA9685_PWM_MASK with (Z.ones 12).
  rewrite Z.land_ones by lia. apply Z.mod_small. exact H.
Qed.

(** ** The shape of a phase cycle *)

(** Without phase shift (every scheme but the linear one, and the ALLLED
    channel) the cycle of a proper duty value starts at 0. *)
Lemma getPhaseCycle_unshifted (t : Target) (pb : PCA9685_PhaseBalancer)
    (channel pwmAmount : Z) :
  1 <= pwmAmount <= 4095 ->
  pb <> PCA9685_PhaseBalancer_Linear \/ channel = PCA9685_ALLLED_CHANNEL ->
  getPhaseCycle t pb channel pwmAmount = (0, pwmAmount).
Proof.
  intros Hd Hc. unfold getPhaseCycle.
  destruct (Z.eqb_spec pwmAmount 0) as [E | _]; [lia |].
  unfold PCA9685_PWM_FULL.
  destruct (Z.geb_spec pwmAmount 4096) as [E | _]; [lia |].
  rewrite Z.add_0_l, land_mask by (unfold PCA9685_PWM_FULL; lia).
  destruct (Z.eqb_spec channel PCA9685_ALLLED_CHANNEL) as [_ | Hn];
    [reflexivity |].
  destruct pb; try reflexivity.
  destruct Hc as [Hc | Hc]; [now elim Hc | contradiction].
Qed.

(** Under the linear scheme the cycle of a proper duty value on a channel
    other than ALLLED is the window of that width ending at
    [min 4095 (begin0 + width)], for some first begin value
    [begin0 >= 0], whatever the channel number and the target. *)
Lemma getPhaseCycle_linear_shape (t : Target) (channel pwmAmount : Z) :
  1 <= pwmAmount <= 4095 ->
  channel <> PCA9685_ALLLED_CHANNEL ->
  exists begin0,
    0 <= begin0 < 65536 /\
    begin0 =
      u16 (Z.max 0 (sint t (sint t (channel * PCA9685_PBLIN_STEPS)
                            - Z.shiftr pwmAmount 1))) /\
    getPhaseCycle t PCA9685_PhaseBalancer_Linear channel pwmAmount =
      (Z.min 4095 (begin0 + pwmAmount) - pwmAmount,
       Z.min 4095 (begin0 + pwmAmount)).
Proof.
  intros Hd Hc. eexists. split; [apply u16_range |]. split; [reflexivity |].
  unfold getPhaseCycle.
  destruct (Z.eqb_spec pwmAmount 0) as [E | _]; [lia |].
  unfold PCA9685_PWM_FULL at 1.
  destruct (Z.geb_spec pwmAmount 4096) as [E | _]; [lia |].
  destruct (Z.eqb_spec channel PCA9685_ALLLED_CHANNEL) as [E | _];
    [contradiction |].
  set (s := sint t (sint t (channel * PCA9685_PBLIN_STEPS)
                    - Z.shiftr pwmAmount 1)).
  assert (Hb : 0 <= u16 (Z.max 0 s) /\
               u16_arith t (u16 (Z.max 0 s) + pwmAmount)
               = u16 (Z.max 0 s) + pwmAmount).
  { pose proof (u16_range (Z.max 0 s)) as Hr. split; [lia |].
    destruct t; cbn [u16_arith].
    - pose proof (sint_range AVR (sint AVR (channel * PCA9685_PBLIN_STEPS)
                                  - Z.shiftr pwmAmount 1)) as Hs.
      fold s in Hs. change (int_min AVR) with (-32768) in Hs.
      change (int_max AVR) with 32767 in Hs.
      rewrite (u16_small (Z.max 0 s)) by lia.
      apply u16_small. lia.
    - apply sint_small. change (int_min ARM32) with (-2147483648).
      change (int_max ARM32) with 2147483647. lia. }
  destruct Hb as [Hb0 Hb1]. rewrite Hb1.
  change (PCA9685_PWM_FULL - 1) with 4095.
  rewrite (u16_arith_small t 4095) by lia.
  set (e := Z.min 4095 (u16 (Z.max 0 s) + pwmAmount)).
  assert (He : pwmAmount <= e <= 4095) by (unfold e; lia).
  rewrite (u16_small e) by lia.
  rewrite (u16_arith_small t (e - pwmAmount)) by lia.
  rewrite (u16_small (e - pwmAmount)) by lia.
  reflexivity.
Qed.

Lemma full_flag_ge (x : Z) :
  is_phase x -> full_flag x = (x >=? PCA9685_PWM_FULL).
Proof.
  unfold is_phase, full_flag, PCA9685_PWM_FULL. intros H.
  destruct (Z.geb_spec x 4096) as [G | G].
  - apply Z.testbit_true; [lia |]. change (2 ^ 12) with 4096.
    assert (E : x / 4096 = 1)
      by (symmetry; apply (Z.div_unique x 4096 1 (x - 4096)); lia).
    rewrite E. reflexivity.
  - apply Z.testbit_false; [lia |]. change (2 ^ 12) with 4096.
    rewrite Z.div_small by lia. reflexivity.
Qed.

(** ** Phase cycle claims *)

(** C1: for every channel (named or the ALLLED sentinel, indeed any
    channel number) and every duty value in [1,4095], the pair computed
    without phase balancing decodes back to the duty value. *)
Theorem roundtrip_none (t : Target) (channel dutyValue : Z) :
  1 <= dutyValue <= 4095 ->
  decodePhaseCycle t
    (fst (getPhaseCycle t PCA9685_PhaseBalancer_None channel dutyValue))
    (snd (getPhaseCycle t PCA9685_PhaseBalancer_None channel dutyValue))
  = dutyValue.
Proof.
  intros Hd.
  rewrite getPhaseCycle_unshifted by (auto; left; discriminate).
  cbn [fst snd]. unfold decodePhaseCycle, PCA9685_PWM_FULL.
  destruct (Z.geb_spec dutyValue 4096) as [G | _]; [lia |].
  destruct (Z.geb_spec 0 4096) as [G | _]; [lia |].
  destruct (Z.leb_spec 0 dutyValue) as [_ | G]; [| lia].
  rewrite Z.sub_0_r, u16_arith_small, u16_small by lia. reflexivity.
Qed.

Lemma roundtrip_none_witness :
  1 <= 1000 <= 4095 /\
  decodePhaseCycle AVR
    (fst (getPhaseCycle AVR PCA9685_PhaseBalancer_None 3 1000))
    (snd (getPhaseCycle AVR PCA9685_PhaseBalancer_None 3 1000))
  = 1000.
Proof. split; [lia | apply (roundtrip_none AVR 3 1000); lia]. Defined.

(** C2: the decoding of the read-back pair is the four-branch reference
    definition: full-off if the end value is flagged (also when the begin
    value is flagged too), else full-on if the begin value is flagged,
    else the span inside the cycle, else the span across the cycle
    boundary.  For 16 bit values this holds with "flagged" read as
    "at least 4096", and on phase values of the data model (twelve bits
    plus the full flag) with "flagged" read as "bit 12 set". *)
Theorem decode_four_branches (t : Target) (phaseBegin phaseEnd : Z) :
  0 <= phaseBegin < 65536 -> 0 <= phaseEnd < 65536 ->
  decodePhaseCycle t phaseBegin phaseEnd
  = decode_reference at_least_full phaseBegin phaseEnd /\
  (is_phase phaseBegin -> is_phase phaseEnd ->
   decodePhaseCycle t phaseBegin phaseEnd
   = decode_reference full_flag phaseBegin phaseEnd).
Proof.
  intros Hb He.
  assert (E : decodePhaseCycle t phaseBegin phaseEnd
              = decode_reference at_least_full phaseBegin phaseEnd).
  { unfold decodePhaseCycle, decode_reference, at_least_full,
      PCA9685_PWM_FULL.
    rewrite !Z.geb_leb.
    destruct (Z.leb_spec 4096 phaseEnd) as [G1 | G1]; [reflexivity |].
    destruct (Z.leb_spec 4096 phaseBegin) as [G2 | G2]; [reflexivity |].
    destruct (Z.leb_spec phaseBegin phaseEnd) as [L | L].
    - rewrite u16_arith_small, u16_small by lia. reflexivity.
    - rewrite (u16_arith_small t (phaseEnd + 4096)) by lia.
      rewrite u16_arith_small, u16_small by lia. reflexivity. }
  split; [exact E |].
  intros Pb Pe. rewrite E. unfold decode_reference, at_least_full.
  rewrite (full_flag_ge phaseBegin Pb), (full_flag_ge phaseEnd Pe).
  unfold PCA9685_PWM_FULL. rewrite !Z.geb_leb. reflexivity.
Qed.

Lemma decode_four_branches_witness :
  decodePhaseCycle AVR 4096 4097 = 0 /\
  decode_reference full_flag 4096 4097 = 0.
Proof.
  destruct (decode_four_branches AVR 4096 4097 ltac:(lia) ltac:(lia))
    as [Ha Hf].
  split.
  - rewrite Ha. reflexivity.
  - rewrite <- Hf by (unfold is_phase; lia). rewrite Ha. reflexivity.
Defined.

(** The four branches at work: both flags set (full-off wins), full-on,
    a span inside the cycle, a span across the boundary. *)
Example decode_branches_sample :
  decodePhaseCycle AVR 4096 4096 = 0 /\
  decodePhaseCycle AVR 4096 70 = 4096 /\
  decodePhaseCycle AVR 100 300 = 200 /\
  decodePhaseCycle AVR 4000 96 = 192.
Proof. repeat split; reflexivity. Qed.

(** Outside the data model the source compares against 4096 rather than
    testing the flag bit, so a value with a higher bit set counts as
    flagged too. *)
Remark decode_beyond_model :
  decodePhaseCycle AVR 0 8192 = 0 /\ full_flag 8192 = false /\
  decode_reference full_flag 0 8192 = 8192.
Proof. repeat split; reflexivity. Qed.

(** The two sentinel pairs. *)
Lemma getPhaseCycle_off (t : Target) (pb : PCA9685_PhaseBalancer)
    (channel : Z) :
  getPhaseCycle t pb channel 0 = (0, PCA9685_PWM_FULL).
Proof. reflexivity. Qed.

Lemma getPhaseCycle_on (t : Target) (pb : PCA9685_PhaseBalancer)
    (channel pwmAmount : Z) :
  PCA9685_PWM_FULL <= pwmAmount ->
  getPhaseCycle t pb channel pwmAmount = (PCA9685_PWM_FULL, 0).
Proof.
  unfold getPhaseCycle, PCA9685_PWM_FULL. intros Hd.
  destruct (Z.eqb_spec pwmAmount 0) as [E | _]; [lia |].
  destruct (Z.geb_spec pwmAmount 4096) as [_ | G]; [reflexivity | lia].
Qed.

(** C3: for every channel and every phase balancing scheme the cycle for
    duty value 0 is the full-off pair (0, 4096) and the cycle for a duty
    value of 4096 or more is the full-on pair (4096, 0). *)
Theorem full_off_full_on (t : Target) (pb : PCA9685_PhaseBalancer)
    (channel : Z) :
  getPhaseCycle t pb channel 0 = (0, 4096) /\
  (forall dutyValue, 4096 <= dutyValue ->
     getPhaseCycle t pb channel dutyValue = (4096, 0)).
Proof.
  split; [apply getPhaseCycle_off |].
  intros d Hd. apply getPhaseCycle_on. exact Hd.
Qed.

Lemma full_off_full_on_witness :
  4096 <= 5000 /\
  getPhaseCycle ARM32 PCA9685_PhaseBalancer_Linear 7 0 = (0, 4096) /\
  getPhaseCycle ARM32 PCA9685_PhaseBalancer_Linear 7 5000 = (4096, 0).
Proof.
  split; [lia |].
  destruct (full_off_full_on ARM32 PCA9685_PhaseBalancer_Linear 7) as [H0 H1].
  split; [exact H0 | apply H1; lia].
Defined.

(** C4: under the linear scheme, for a named channel and a duty value in
    [1,4095], the window is as wide as requested:
    (phaseEnd - phaseBegin) mod 4096 is the duty value, where phaseEnd is
    the first begin value plus the duty value clamped to 4095 and
    phaseBegin is recomputed as phaseEnd minus the duty value. *)
Theorem linear_window_width (t : Target) (channel dutyValue : Z) :
  0 <= channel <= 15 -> 1 <= dutyValue <= 4095 ->
  let '(phaseBegin, phaseEnd) :=
    getPhaseCycle t PCA9685_PhaseBalancer_Linear channel dutyValue in
  (phaseEnd - phaseBegin) mod 4096 = dutyValue /\
  phaseEnd =
    Z.min (4096 - 1)
          (Z.max 0 (channel * (4096 / 16) - dutyValue / 2) + dutyValue) /\
  phaseBegin = phaseEnd - dutyValue.
Proof.
  intros Hc Hd.
  destruct (getPhaseCycle_linear_shape t channel dutyValue Hd)
    as (b0 & Hb0 & Eb0 & ->); [unfold PCA9685_ALLLED_CHANNEL; lia |].
  assert (E : b0 = Z.max 0 (channel * 256 - dutyValue / 2)).
  { rewrite Eb0. change PCA9685_PBLIN_STEPS with 256.
    rewrite Z.shiftr_div_pow2 by lia. change (2 ^ 1) with 2.
    assert (0 <= dutyValue / 2 <= 2047).
    { split; [apply Z.div_pos; lia |].
      apply Z.lt_succ_r, Z.div_lt_upper_bound; lia. }
    rewrite (sint_16 t (channel * 256)) by lia.
    rewrite sint_16 by lia. apply u16_small. lia. }
  change (4096 / 16) with 256. change (4096 - 1) with 4095. rewrite <- E.
  split; [| split; reflexivity].
  replace (Z.min 4095 (b0 + dutyValue)
           - (Z.min 4095 (b0 + dutyValue) - dutyValue)) with dutyValue by lia.
  apply Z.mod_small. lia.
Qed.

Lemma linear_window_width_witness :
  0 <= 15 <= 15 /\ 1 <= 4000 <= 4095 /\
  getPhaseCycle AVR PCA9685_PhaseBalancer_Linear 15 4000 = (95, 4095).
Proof.
  split; [lia |]. split; [lia |].
  pose proof (linear_window_width AVR 15 4000 ltac:(lia) ltac:(lia)) as H.
  destruct (getPhaseCycle AVR PCA9685_PhaseBalancer_Linear 15 4000)
    as [b e].
  destruct H as (_ & He & Hb). subst b e. reflexivity.
Defined.

(** C10: for every channel number, every 16 bit duty value and every
    phase balancing scheme the computed pair is a valid chip encoding:
    both values are at most 4096 and at most one of them is 4096 (carries
    the full flag). *)
Theorem phase_pair_valid (t : Target) (pb : PCA9685_PhaseBalancer)
    (channel dutyValue : Z) :
  0 <= dutyValue < 65536 ->
  let '(phaseBegin, phaseEnd) := getPhaseCycle t pb channel dutyValue in
  0 <= phaseBegin <= 4096 /\ 0 <= phaseEnd <= 4096 /\
  ~ (phaseBegin = 4096 /\ phaseEnd = 4096).
Proof.
  intros Hd.
  destruct (Z.eq_dec dutyValue 0) as [-> | Hz].
  { rewrite getPhaseCycle_off. unfold PCA9685_PWM_FULL. lia. }
  destruct (Z_le_gt_dec 4096 dutyValue) as [Hf | Hf].
  { rewrite getPhaseCycle_on by exact Hf. unfold PCA9685_PWM_FULL. lia. }
  assert (Hp : 1 <= dutyValue <= 4095) by lia.
  destruct (Z.eq_dec channel PCA9685_ALLLED_CHANNEL) as [Ea | Na].
  { rewrite getPhaseCycle_unshifted by auto. lia. }
  destruct pb;
    try (rewrite getPhaseCycle_unshifted by (auto; left; discriminate); lia).
  destruct (getPhaseCycle_linear_shape t channel dutyValue Hp Na)
    as (b0 & Hb0 & _ & ->).
  lia.
Qed.

Lemma phase_pair_valid_witness :
  0 <= 2048 < 65536 /\
  getPhaseCycle AVR PCA9685_PhaseBalancer_Linear 130 2048 <> (4096, 4096).
Proof.
  split; [lia |].
  pose proof (phase_pair_valid AVR PCA9685_PhaseBalancer_Linear 130 2048
                ltac:(lia)) as H.
  destruct (getPhaseCycle AVR PCA9685_PhaseBalancer_Linear 130 2048)
    as [b e].
  intros E. inversion E. apply H. split; assumption.
Defined.

(** ** Bus trace facts *)

Lemma append_log_app (s : PCA9685) (a b : list Event) :
  append_log (append_log s a) b = append_log s (a ++ b).
Proof.
  unfold append_log, with_wire. cbn. rewrite <- app_assoc. reflexivity.
Qed.

Lemma i2cWire_write_log (s : PCA9685) (data : Z) :
  i2cWire_write s data = append_log s [EvWrite data].
Proof. reflexivity. Qed.

Lemma writeChannelPWM_log (s : PCA9685) (phaseBegin phaseEnd : Z) :
  writeChannelPWM s phaseBegin phaseEnd =
  append_log s [EvWrite (lowByte phaseBegin); EvWrite (highByte phaseBegin);
                EvWrite (lowByte phaseEnd); EvWrite (highByte phaseEnd)].
Proof.
  unfold writeChannelPWM. rewrite !i2cWire_write_log, !append_log_app.
  reflexivity.
Qed.

Lemma writeChannelBegin_log (s : PCA9685) (channel : Z) :
  0 <= channel <= 15 ->
  writeChannelBegin s channel =
  append_log (with_error s 0)
    [EvBegin (_i2cAddr s); EvWrite (PCA9685_LED0_REG + 4 * channel)].
Proof.
  intros Hc. unfold writeChannelBegin.
  destruct (Z.eqb_spec channel PCA9685_ALLLED_CHANNEL) as [E | _];
    [unfold PCA9685_ALLLED_CHANNEL in E; lia |].
  cbn [negb]. rewrite u8_small by (unfold PCA9685_LED0_REG; lia).
  rewrite i2cWire_write_log. unfold i2cWire_beginTransmission.
  replace (channel * 4) with (4 * channel) by lia.
  change (with_wire (with_error s 0)
            (emit (_i2cWire s) (EvBegin (_i2cAddr s))))
    with (append_log (with_error s 0) [EvBegin (_i2cAddr s)]).
  rewrite append_log_app. reflexivity.
Qed.

Lemma hd_skipn (l : list Z) (i : nat) : hd 0 (skipn i l) = nth i l 0.
Proof.
  revert l. induction i as [| i IH]; intros [| x l]; cbn; auto.
Qed.

Lemma tl_skipn (l : list Z) (i : nat) : tl (skipn i l) = skipn (S i) l.
Proof.
  revert l. induction i as [| i IH]; intros [| x l]; cbn; auto.
Qed.

(** The inner loop writes the register bytes of [k] consecutive channels
    and moves the channel counter, the remaining count and the array
    pointer along. *)
Lemma setChannelsPWM_inner_log (t : Target) (base : Z) (all : list Z)
    (k : nat) :
  forall (s : PCA9685) (begChannel numChannels : Z),
    base <= begChannel -> begChannel + Z.of_nat k <= 32767 -> -32768 <= base ->
    setChannelsPWM_inner t k s begChannel numChannels
      (skipn (Z.to_nat (begChannel - base)) all)
    = (append_log s
         (payload t (_phaseBalancer s) (value_at base all) begChannel k),
       begChannel + Z.of_nat k, numChannels - Z.of_nat k,
       skipn (Z.to_nat (begChannel + Z.of_nat k - base)) all).
Proof.
  induction k as [| k IH]; intros s c n Hb Hk Hbase.
  - cbn [setChannelsPWM_inner payload Z.of_nat].
    rewrite Z.add_0_r, Z.sub_0_r.
    unfold append_log, with_wire. rewrite app_nil_r.
    destruct s as [a [l e r x] p i le]; reflexivity.
  - cbn [setChannelsPWM_inner payload].
    rewrite hd_skipn. fold (value_at base all c).
    unfold channel_bytes.
    destruct (getPhaseCycle t (_phaseBalancer s) c (value_at base all c))
      as [pb pe].
    rewrite writeChannelPWM_log, tl_skipn.
    rewrite sint_16 by lia.
    replace (S (Z.to_nat (c - base))) with (Z.to_nat (c + 1 - base)) by lia.
    rewrite IH by lia.
    rewrite append_log_app. cbn [_phaseBalancer append_log with_wire].
    rewrite Nat2Z.inj_succ.
    replace (c + 1 + Z.of_nat k) with (c + Z.succ (Z.of_nat k)) by lia.
    replace (n - 1 - Z.of_nat k) with (n - Z.succ (Z.of_nat k)) by lia.
    reflexivity.
Qed.

(** The close of a transaction. *)
Lemma writeChannelEnd_log (s : PCA9685) :
  writeChannelEnd s =
  with_wire (with_error s (u8 (hd 0 (wire_ends (_i2cWire s)))))
    (mkWire (wire_log (_i2cWire s)
             ++ [EvEnd (u8 (hd 0 (wire_ends (_i2cWire s))))])
            (tl (wire_ends (_i2cWire s))) (wire_replies (_i2cWire s))
            (wire_rx (_i2cWire s))).
Proof. reflexivity. Qed.

(** The plan of a request that does not fit one transaction is its first
    chunk followed by the plan of the rest. *)
Lemma chunk_plan_step (per first count : Z) :
  1 <= per -> 0 < count ->
  chunk_plan per first count =
  (first, Z.min count per)
    :: chunk_plan per (first + Z.min count per) (count - Z.min count per).
Proof.
  intros Hp Hc. unfold chunk_plan.
  destruct (Z_le_gt_dec count per) as [Hs | Hl].
  - rewrite (Z.min_l count per) by lia.
    replace (count - count) with 0 by lia.
    assert (E1 : (count + per - 1) / per = 1)
      by (symmetry; apply (Z.div_unique _ per 1 (count - 1)); lia).
    assert (E0 : (0 + per - 1) / per = 0) by (apply Z.div_small; lia).
    rewrite E1, E0. change (Z.to_nat 1) with 1%nat.
    change (Z.to_nat 0) with 0%nat. cbn [seq map].
    change (Z.of_nat 0) with 0. rewrite Z.mul_0_l, Z.add_0_r, Z.sub_0_r.
    rewrite (Z.min_r per count) by lia. reflexivity.
  - rewrite (Z.min_r count per) by lia.
    assert (E : (count + per - 1) / per = (count - per + per - 1) / per + 1).
    { replace (count + per - 1) with (count - per + per - 1 + 1 * per) by lia.
      apply Z.div_add. lia. }
    assert (0 <= (count - per + per - 1) / per) by (apply Z.div_pos; lia).
    rewrite E, Z2Nat.inj_add by lia. rewrite Nat.add_comm.
    change (Z.to_nat 1) with 1%nat. cbn [Nat.add seq map].
    change (Z.of_nat 0) with 0. rewrite Z.mul_0_l, Z.add_0_r, Z.sub_0_r.
    rewrite (Z.min_l per count) by lia.
    f_equal.
    rewrite <- seq_shift, map_map.
    apply map_ext. intros j. rewrite Nat2Z.inj_succ. f_equal; lia.
Qed.

Lemma chunk_plan_nil (per first count : Z) :
  1 <= per -> count <= 0 -> chunk_plan per first count = [].
Proof.
  intros Hp Hc. unfold chunk_plan.
  replace (Z.to_nat ((count + per - 1) / per)) with 0%nat; [reflexivity |].
  assert ((count + per - 1) / per <= 0); [| lia].
  apply Z.lt_succ_r, Z.div_lt_upper_bound; lia.
Qed.

(** An induction principle for plans: along the chunks. *)
Lemma chunk_plan_ind (per : Z) (P : Z -> Z -> list (Z * Z) -> Prop) :
  1 <= per ->
  (forall first count, count <= 0 -> P first count []) ->
  (forall first count rest,
     0 < count ->
     rest = chunk_plan per (first + Z.min count per)
                       (count - Z.min count per) ->
     P (first + Z.min count per) (count - Z.min count per) rest ->
     P first count ((first, Z.min count per) :: rest)) ->
  forall first count, P first count (chunk_plan per first count).
Proof.
  intros Hp Hnil Hcons first count.
  remember (Z.to_nat count) as n eqn:En.
  revert first count En.
  induction n as [n IH] using lt_wf_ind. intros first count En.
  destruct (Z_le_gt_dec count 0) as [Hz | Hpos].
  - rewrite chunk_plan_nil by lia. apply Hnil. exact Hz.
  - rewrite chunk_plan_step by lia.
    apply Hcons; [lia | reflexivity |].
    apply (IH (Z.to_nat (count - Z.min count per))); lia.
Qed.

(** One turn of the outer loop: one transaction for the next chunk. *)
Lemma setChannelsPWM_loop_step (t : Target) (bufferLength base : Z)
    (all : list Z) (fuel : nat) (s : PCA9685) (begChannel numChannels : Z) :
  5 <= bufferLength ->
  0 < numChannels -> 0 <= base <= begChannel -> begChannel + numChannels <= 16 ->
  let m := Z.min numChannels (channels_per_transaction bufferLength) in
  let s1 :=
    writeChannelEnd
      (append_log (with_error s 0)
         ([EvBegin (_i2cAddr s);
           EvWrite (PCA9685_LED0_REG + 4 * begChannel)]
          ++ payload t (_phaseBalancer s) (value_at base all) begChannel
               (Z.to_nat m))) in
  setChannelsPWM_loop t bufferLength (S fuel) s begChannel numChannels
    (skipn (Z.to_nat (begChannel - base)) all)
  = if negb (_lastI2CError s1 =? 0) then Some s1
    else setChannelsPWM_loop t bufferLength fuel s1 (begChannel + m)
           (numChannels - m) (skipn (Z.to_nat (begChannel + m - base)) all).
Proof.
  intros HL Hn Hb Hs m s1.
  cbn [setChannelsPWM_loop].
  destruct (Z.gtb_spec numChannels 0) as [_ | C]; [| lia].
  rewrite Z.quot_div_nonneg by lia.
  fold (channels_per_transaction bufferLength). fold m.
  assert (Hper : 1 <= channels_per_transaction bufferLength).
  { unfold channels_per_transaction. apply Z.div_le_lower_bound; lia. }
  assert (Hm : 1 <= m <= numChannels) by (unfold m; lia).
  rewrite writeChannelBegin_log by lia.
  rewrite (setChannelsPWM_inner_log t base all (Z.to_nat m)) by lia.
  rewrite Z2Nat.id by lia.
  rewrite append_log_app.
  reflexivity.
Qed.

Lemma skipn_tl (A : Type) (l : list A) (n : nat) :
  skipn n (tl l) = skipn (S n) l.
Proof. destruct l; [destruct n |]; reflexivity. Qed.

Lemma nth_tl (l : list Z) (n : nat) : nth n (tl l) 0 = nth (S n) l 0.
Proof. destruct l; [destruct n |]; reflexivity. Qed.

Lemma hd_nth (l : list Z) : hd 0 l = nth 0 l 0.
Proof. destruct l; reflexivity. Qed.

(** The outer loop returns within as many turns as channels remain, and
    its bus traffic is the fail-fast trace of the chunk plan. *)
Lemma setChannelsPWM_loop_trace (t : Target) (bufferLength base : Z)
    (all : list Z) :
  5 <= bufferLength ->
  forall (fuel : nat) (s : PCA9685) (begChannel numChannels : Z),
    0 <= base <= begChannel -> begChannel + numChannels <= 16 ->
    (Z.to_nat numChannels <= fuel)%nat ->
    let chunks :=
      chunk_plan (channels_per_transaction bufferLength) begChannel
        numChannels in
    let ends := wire_ends (_i2cWire s) in
    exists s',
      setChannelsPWM_loop t bufferLength fuel s begChannel numChannels
        (skipn (Z.to_nat (begChannel - base)) all) = Some s' /\
      wire_log (_i2cWire s') =
        wire_log (_i2cWire s)
        ++ bus_trace t (_phaseBalancer s) (_i2cAddr s) (value_at base all)
             chunks ends /\
      wire_ends (_i2cWire s') = skipn (issued chunks ends) ends /\
      _lastI2CError s' =
        match issued chunks ends with
        | O => _lastI2CError s
        | S i => u8 (nth i ends 0)
        end /\
      _phaseBalancer s' = _phaseBalancer s /\ _i2cAddr s' = _i2cAddr s.
Proof.
  intros HL.
  assert (Hper : 1 <= channels_per_transaction bufferLength).
  { unfold channels_per_transaction. apply Z.div_le_lower_bound; lia. }
  induction fuel as [| fuel IH]; intros s c n Hb Hs Hf chunks ends.
  - exists s. subst chunks. rewrite chunk_plan_nil by lia.
    cbn [setChannelsPWM_loop bus_trace issued skipn].
    destruct (Z.gtb_spec n 0) as [C | _]; [lia |].
    rewrite app_nil_r. repeat split; reflexivity.
  - destruct (Z_le_gt_dec n 0) as [Hz | Hpos].
    + exists s. subst chunks. rewrite chunk_plan_nil by lia.
      cbn [setChannelsPWM_loop bus_trace issued skipn].
      destruct (Z.gtb_spec n 0) as [C | _]; [lia |].
      rewrite app_nil_r. repeat split; reflexivity.
    + subst chunks. rewrite chunk_plan_step by lia.
      rewrite (setChannelsPWM_loop_step t bufferLength base all fuel s c n)
        by lia.
      set (m := Z.min n (channels_per_transaction bufferLength)).
      rewrite writeChannelEnd_log.
      cbn [bus_trace issued].
      cbn [_lastI2CError with_wire with_error append_log _i2cWire wire_ends
           wire_log _i2cAddr _phaseBalancer].
      fold ends.
      destruct (Z.eqb_spec (u8 (hd 0 ends)) 0) as [E0 | E1]; cbn [negb].
      * match goal with
        | |- context [ setChannelsPWM_loop _ _ _ ?s1 _ _ _ ] =>
            destruct (IH s1 (c + m) (n - m)) as (s' & R & Hlog & Hends & Herr & Hpb & Haddr);
              [ lia | lia | lia | ]
        end.
        cbn [_lastI2CError with_wire with_error append_log _i2cWire wire_ends
             wire_log _i2cAddr _phaseBalancer] in *.
        exists s'. split; [exact R |].
        split.
        { rewrite Hlog. unfold transaction. cbn [fst snd].
          rewrite E0. rewrite <- !app_assoc. reflexivity. }
        split; [rewrite Hends; apply skipn_tl |].
        split; [| split; assumption].
        rewrite Herr.
        destruct (issued _ (tl ends)) as [| i].
        { rewrite <- hd_nth. reflexivity. }
        { rewrite nth_tl. reflexivity. }
      * eexists. split; [reflexivity |].
        cbn [_lastI2CError with_wire with_error append_log _i2cWire wire_ends
             wire_log _i2cAddr _phaseBalancer].
        split.
        { unfold transaction. cbn [fst snd]. rewrite app_nil_r.
          rewrite <- !app_assoc. reflexivity. }
        split; [destruct ends; reflexivity |].
        split; [rewrite <- hd_nth; reflexivity |].
        split; reflexivity.
Qed.

Lemma clip_numChannels_min (t : Target) (begChannel numChannels : Z) :
  0 <= begChannel <= 15 -> 0 <= numChannels ->
  begChannel + numChannels <= int_max t ->
  clip_numChannels t begChannel numChannels
  = Z.min numChannels (16 - begChannel).
Proof.
  intros Hb Hn Ho. unfold clip_numChannels.
  pose proof (int_min_le t) as Hmin. pose proof (int_max_ge t) as Hmax.
  rewrite (sint_small t (begChannel + numChannels)) by lia.
  destruct (Z.gtb_spec (begChannel + numChannels) 16) as [G | G].
  - rewrite (sint_small t (begChannel + numChannels - 16)) by lia.
    rewrite sint_small by lia. lia.
  - lia.
Qed.

(** The plan: every chunk holds between one and [per] channels, the
    chunks follow each other without gap, and together they hold the
    requested channels. *)
Lemma chunk_plan_shape (per first count : Z) :
  1 <= per -> 0 <= count ->
  Forall (fun chunk => 1 <= snd chunk <= per) (chunk_plan per first count) /\
  contiguous first (chunk_plan per first count) /\
  total_channels (chunk_plan per first count) = count.
Proof.
  intros Hp. revert first count.
  apply (chunk_plan_ind per
           (fun first count chunks =>
              0 <= count ->
              Forall (fun chunk => 1 <= snd chunk <= per) chunks /\
              contiguous first chunks /\ total_channels chunks = count));
    [exact Hp | |].
  - intros first count Hz H0. cbn. repeat split; [constructor | lia].
  - intros first count rest Hpos _ IH _.
    destruct IH as (HF & HC & HT); [lia |].
    split; [constructor; [cbn [snd]; lia | exact HF] |].
    split; [cbn [contiguous fst snd]; auto |].
    unfold total_channels in *. cbn [fold_right snd]. lia.
Qed.

(** Counting the calls of a trace. *)
Lemma payload_counts (t : Target) (pb : PCA9685_PhaseBalancer)
    (value_of : Z -> Z) (count : nat) :
  forall first,
    length (filter is_write (payload t pb value_of first count))
    = (4 * count)%nat /\
    filter is_begin (payload t pb value_of first count) = [].
Proof.
  induction count as [| k IH]; intros first; [split; reflexivity |].
  cbn [payload]. unfold channel_bytes.
  destruct (getPhaseCycle t pb first (value_of first)) as [b e].
  destruct (IH (first + 1)) as [Hw Hb].
  rewrite !filter_app, length_app, Hw, Hb. cbn [filter is_write is_begin length app].
  split; [lia | reflexivity].
Qed.

Lemma transaction_counts (t : Target) (pb : PCA9685_PhaseBalancer) (addr : Z)
    (value_of : Z -> Z) (chunk : Z * Z) (err : Z) :
  0 <= snd chunk ->
  Z.of_nat (length (filter is_write (transaction t pb addr value_of chunk err)))
  = 1 + 4 * snd chunk /\
  length (filter is_begin (transaction t pb addr value_of chunk err)) = 1%nat.
Proof.
  intros Hc. unfold transaction.
  destruct (payload_counts t pb value_of (Z.to_nat (snd chunk)) (fst chunk))
    as [Hw Hb].
  cbn [app filter is_write is_begin length].
  rewrite !filter_app, !length_app, Hw, Hb.
  cbn [filter is_write is_begin length app]. split; lia.
Qed.

Lemma bus_trace_counts (t : Target) (pb : PCA9685_PhaseBalancer) (addr : Z)
    (value_of : Z -> Z) (chunks : list (Z * Z)) :
  Forall (fun chunk => 0 <= snd chunk) chunks ->
  forall ends,
    let trace := bus_trace t pb addr value_of chunks ends in
    length (filter is_begin trace) = issued chunks ends /\
    Z.of_nat (length (filter is_write trace))
    - Z.of_nat (length (filter is_begin trace))
    = 4 * total_channels (firstn (issued chunks ends) chunks).
Proof.
  induction 1 as [| chunk rest Hc _ IH]; intros ends; [split; reflexivity |].
  cbn [bus_trace issued].
  destruct (transaction_counts t pb addr value_of chunk (u8 (hd 0 ends)) Hc)
    as [Hw Hb].
  destruct (IH (tl ends)) as [Ib Iw]. cbn zeta in Ib, Iw.
  cbn zeta. rewrite !filter_app, !length_app, Hb.
  destruct (u8 (hd 0 ends) =? 0).
  - rewrite Ib. split; [reflexivity |].
    cbn [firstn]. unfold total_channels in *. cbn [fold_right].
    rewrite Ib in Iw. lia.
  - cbn [filter length]. split; [reflexivity |].
    cbn [firstn]. unfold total_channels. cbn [fold_right]. lia.
Qed.

(** Under results that are all zero every chunk gets its transaction. *)
Lemma issued_all_ok (chunks : list (Z * Z)) :
  forall ends, Forall (fun e => e = 0) ends ->
               issued chunks ends = length chunks.
Proof.
  induction chunks as [| chunk rest IH]; intros ends Hz; [reflexivity |].
  cbn [issued length].
  assert (E : u8 (hd 0 ends) = 0) by (destruct Hz; [| subst]; reflexivity).
  rewrite E. cbn. f_equal. apply IH. destruct Hz; [constructor | assumption].
Qed.

(** Under results that are zero [j] times and then [e <> 0] the trace is
    the first [j] transactions, closed with success, and the failing
    one. *)
Lemma bus_trace_failure (t : Target) (pb : PCA9685_PhaseBalancer) (addr : Z)
    (value_of : Z -> Z) (e : Z) (later : list Z) (j : nat) :
  u8 e <> 0 ->
  forall chunks, (j < length chunks)%nat ->
    bus_trace t pb addr value_of chunks (repeat 0 j ++ e :: later)
    = bus_trace t pb addr value_of (firstn j chunks) (repeat 0 j)
      ++ transaction t pb addr value_of (nth j chunks (0, 0)) (u8 e) /\
    issued chunks (repeat 0 j ++ e :: later) = S j.
Proof.
  intros He. induction j as [| j IH]; intros [| chunk rest] Hj;
    try (cbn in Hj; lia).
  - cbn [repeat app bus_trace issued hd firstn nth].
    destruct (Z.eqb_spec (u8 e) 0) as [C | _]; [contradiction |].
    rewrite app_nil_r. split; reflexivity.
  - cbn [repeat app bus_trace issued hd tl firstn nth].
    change (u8 0 =? 0) with true. cbn iota.
    destruct (IH rest) as [Ht Hi]; [cbn in Hj; lia |].
    rewrite Ht, Hi, <- app_assoc. split; reflexivity.
Qed.

(** [setChannelsPWM] on a valid request: it returns, and its bus traffic
    is the fail-fast trace of the plan for the clipped count. *)
Lemma setChannelsPWM_trace (t : Target) (bufferLength : Z) (fuel : nat)
    (s : PCA9685) (begChannel numChannels : Z) (pwmAmounts : list Z) :
  5 <= bufferLength ->
  0 <= begChannel <= 15 -> 0 <= numChannels ->
  begChannel + numChannels <= int_max t ->
  (Z.to_nat (Z.min numChannels (16 - begChannel)) <= fuel)%nat ->
  let chunks :=
    chunk_plan (channels_per_transaction bufferLength) begChannel
      (Z.min numChannels (16 - begChannel)) in
  let ends := wire_ends (_i2cWire s) in
  exists s',
    setChannelsPWM t bufferLength fuel s begChannel numChannels pwmAmounts
    = Some s' /\
    wire_log (_i2cWire s') =
      wire_log (_i2cWire s)
      ++ bus_trace t (_phaseBalancer s) (_i2cAddr s)
           (value_at begChannel pwmAmounts) chunks ends /\
    wire_ends (_i2cWire s') = skipn (issued chunks ends) ends /\
    _lastI2CError s' =
      match issued chunks ends with
      | O => _lastI2CError s
      | S i => u8 (nth i ends 0)
      end.
Proof.
  intros HL Hb Hn Ho Hf chunks ends. unfold setChannelsPWM.
  destruct (Z.ltb_spec begChannel 0) as [C | _]; [lia |].
  destruct (Z.gtb_spec begChannel 15) as [C | _]; [lia |].
  destruct (Z.ltb_spec numChannels 0) as [C | _]; [lia |].
  cbn [orb]. rewrite clip_numChannels_min by assumption.
  destruct (setChannelsPWM_loop_trace t bufferLength begChannel pwmAmounts HL
              fuel s begChannel (Z.min numChannels (16 - begChannel)))
    as (s' & R & Hlog & Hends & Herr & _); [lia | lia | exact Hf |].
  rewrite Z.sub_diag in R. cbn [Z.to_nat skipn] in R.
  exists s'. repeat split; assumption.
Qed.

(** ** Multi-channel write claims *)

Lemma nth_middle_repeat (j : nat) (e : Z) (later : list Z) :
  nth j (repeat 0 j ++ e :: later) 0 = e.
Proof. induction j as [| j IH]; [reflexivity | exact IH]. Qed.

Lemma skipn_middle_repeat (j : nat) (e : Z) (later : list Z) :
  skipn (S j) (repeat 0 j ++ e :: later) = later.
Proof. induction j as [| j IH]; [reflexivity | exact IH]. Qed.

(** C5: a multi-channel write returns, and its bus traffic is one
    transaction per chunk of the request (up to the first failing
    close), each opened, addressed at the register of its first channel
    and closed on its own; a chunk holds at most
    floor((buffer length - 1) / 4) channels, the chunks start at
    successive channels and together hold the clipped request. *)
Theorem setChannelsPWM_chunked (t : Target) (bufferLength : Z) (fuel : nat)
    (s : PCA9685) (begChannel numChannels : Z) (pwmAmounts : list Z) :
  5 <= bufferLength ->
  0 <= begChannel <= 15 -> 0 <= numChannels ->
  begChannel + numChannels <= int_max t ->
  (Z.to_nat (Z.min numChannels (16 - begChannel)) <= fuel)%nat ->
  let per := channels_per_transaction bufferLength in
  let chunks :=
    chunk_plan per begChannel (Z.min numChannels (16 - begChannel)) in
  exists s',
    setChannelsPWM t bufferLength fuel s begChannel numChannels pwmAmounts
    = Some s' /\
    wire_log (_i2cWire s') =
      wire_log (_i2cWire s)
      ++ bus_trace t (_phaseBalancer s) (_i2cAddr s)
           (value_at begChannel pwmAmounts) chunks
           (wire_ends (_i2cWire s)) /\
    Forall (fun chunk => 1 <= snd chunk <= per) chunks /\
    contiguous begChannel chunks /\
    total_channels chunks = Z.min numChannels (16 - begChannel).
Proof.
  intros HL Hb Hn Ho Hf per chunks.
  destruct (setChannelsPWM_trace t bufferLength fuel s begChannel numChannels
              pwmAmounts HL Hb Hn Ho Hf) as (s' & R & Hlog & _).
  assert (Hper : 1 <= per).
  { unfold per, channels_per_transaction. apply Z.div_le_lower_bound; lia. }
  destruct (chunk_plan_shape per begChannel
              (Z.min numChannels (16 - begChannel)) Hper ltac:(lia))
    as (HF & HC & HT).
  exists s'. repeat split; assumption.
Qed.

Lemma setChannelsPWM_chunked_witness :
  exists s',
    setChannelsPWM AVR 32 16 (sample_device [] []) 0 20 (repeat 2048 20)
    = Some s' /\
    wire_log (_i2cWire s') =
      bus_trace AVR PCA9685_PhaseBalancer_Linear 64
        (value_at 0 (repeat 2048 20)) [(0, 7); (7, 7); (14, 2)] [].
Proof.
  destruct (setChannelsPWM_chunked AVR 32 16 (sample_device [] []) 0 20
              (repeat 2048 20))
    as (s' & R & Hlog & _);
    [lia | lia | lia | vm_compute; discriminate | vm_compute; lia |].
  exists s'. split; [exact R | exact Hlog].
Defined.

(** C6: when the close of chunk [j] is the first to report an error
    [e], the call returns with that error as last error; its bus traffic
    is the transactions of the chunks before [j], closed with success and
    left as they are, followed by the failing transaction, and nothing
    after it: [j + 1] transactions are opened, and the results of later
    closes are not consumed. *)
Theorem setChannelsPWM_fail_fast (t : Target) (bufferLength : Z) (fuel : nat)
    (s : PCA9685) (begChannel numChannels : Z) (pwmAmounts : list Z)
    (j : nat) (e : Z) (later : list Z) :
  5 <= bufferLength ->
  0 <= begChannel <= 15 -> 0 <= numChannels ->
  begChannel + numChannels <= int_max t ->
  (Z.to_nat (Z.min numChannels (16 - begChannel)) <= fuel)%nat ->
  let chunks :=
    chunk_plan (channels_per_transaction bufferLength) begChannel
      (Z.min numChannels (16 - begChannel)) in
  (j < length chunks)%nat ->
  wire_ends (_i2cWire s) = repeat 0 j ++ e :: later ->
  1 <= e <= 255 ->
  exists s' trace,
    setChannelsPWM t bufferLength fuel s begChannel numChannels pwmAmounts
    = Some s' /\
    wire_log (_i2cWire s') = wire_log (_i2cWire s) ++ trace /\
    trace =
      bus_trace t (_phaseBalancer s) (_i2cAddr s)
        (value_at begChannel pwmAmounts) (firstn j chunks) (repeat 0 j)
      ++ transaction t (_phaseBalancer s) (_i2cAddr s)
           (value_at begChannel pwmAmounts) (nth j chunks (0, 0)) e /\
    length (filter is_begin trace) = S j /\
    _lastI2CError s' = e /\
    wire_ends (_i2cWire s') = later.
Proof.
  intros HL Hb Hn Ho Hf chunks Hj Hends He.
  destruct (setChannelsPWM_trace t bufferLength fuel s begChannel numChannels
              pwmAmounts HL Hb Hn Ho Hf) as (s' & R & Hlog & Hrest & Herr).
  fold chunks in Hlog, Hrest, Herr. rewrite Hends in Hlog, Hrest, Herr.
  assert (Hu : u8 e = e) by (apply u8_small; lia).
  destruct (bus_trace_failure t (_phaseBalancer s) (_i2cAddr s)
              (value_at begChannel pwmAmounts) e later j ltac:(lia) chunks Hj)
    as [Ht Hi].
  rewrite Hu in Ht. rewrite Hi in Hrest, Herr.
  assert (Hshape : Forall (fun chunk => 0 <= snd chunk) chunks).
  { assert (Hper : 1 <= channels_per_transaction bufferLength)
      by (unfold channels_per_transaction;
          apply Z.div_le_lower_bound; lia).
    destruct (chunk_plan_shape (channels_per_transaction bufferLength)
                begChannel (Z.min numChannels (16 - begChannel)) Hper
                ltac:(lia)) as (HF & _).
    eapply Forall_impl; [| exact HF]. cbn beta. intros c Hc; lia. }
  destruct (bus_trace_counts t (_phaseBalancer s) (_i2cAddr s)
              (value_at begChannel pwmAmounts) chunks Hshape
              (repeat 0 j ++ e :: later)) as [Hbeg _].
  cbn zeta in Hbeg. rewrite Hi, Ht in Hbeg.
  eexists s', _. split; [exact R |]. split; [rewrite Hlog, Ht; reflexivity |].
  split; [reflexivity |]. split; [exact Hbeg |].
  split.
  - rewrite Herr, nth_middle_repeat. exact Hu.
  - rewrite Hrest. apply skipn_middle_repeat.
Qed.

Lemma setChannelsPWM_fail_fast_witness :
  exists s',
    setChannelsPWM AVR 32 16 (sample_device [0; 3; 0] []) 0 16
      (repeat 2048 16) = Some s' /\
    _lastI2CError s' = 3 /\ wire_ends (_i2cWire s') = [0].
Proof.
  destruct (setChannelsPWM_fail_fast AVR 32 16 (sample_device [0; 3; 0] [])
              0 16 (repeat 2048 16) 1 3 [0])
    as (s' & trace & R & _ & _ & _ & Herr & Hends);
    [ lia | lia | lia | vm_compute; discriminate | vm_compute; lia
    | vm_compute; lia | reflexivity | lia | ].
  exists s'. repeat split; assumption.
Defined.

(** Where the sum of begin channel and count fits an [int], the count is
    clipped so that begin channel plus count stays within 16: a request
    for 20 channels from channel 0 queues 16, one for 10 channels from
    channel 10 queues 6; with an invalid begin channel or a count of
    zero or less nothing happens on the bus. *)
Theorem setChannelsPWM_clips (t : Target) (bufferLength : Z) (fuel : nat)
    (s : PCA9685) (begChannel numChannels : Z) (pwmAmounts : list Z) :
  (begChannel < 0 \/ 15 < begChannel \/ numChannels <= 0 ->
   setChannelsPWM t bufferLength fuel s begChannel numChannels pwmAmounts
   = Some s) /\
  (0 <= begChannel <= 15 -> 0 <= numChannels ->
   begChannel + numChannels <= int_max t ->
   let count := clip_numChannels t begChannel numChannels in
   count = Z.min numChannels (16 - begChannel) /\
   begChannel + count <= 16 /\
   (5 <= bufferLength -> (Z.to_nat count <= fuel)%nat ->
    Forall (fun e => e = 0) (wire_ends (_i2cWire s)) ->
    exists s' trace,
      setChannelsPWM t bufferLength fuel s begChannel numChannels pwmAmounts
      = Some s' /\
      wire_log (_i2cWire s') = wire_log (_i2cWire s) ++ trace /\
      channels_written trace = count)) /\
  clip_numChannels t 0 20 = 16 /\ clip_numChannels t 10 10 = 6.
Proof.
  split; [| split].
  - intros Hno. unfold setChannelsPWM.
    destruct (Z.ltb_spec begChannel 0) as [C1 | C1]; [reflexivity |].
    destruct (Z.gtb_spec begChannel 15) as [C2 | C2]; [reflexivity |].
    destruct (Z.ltb_spec numChannels 0) as [C3 | C3]; [reflexivity |].
    cbn [orb].
    assert (numChannels = 0) by lia. subst numChannels.
    pose proof (int_max_ge t).
    rewrite clip_numChannels_min by lia.
    rewrite Z.min_l by lia.
    destruct fuel; reflexivity.
  - intros Hb Hn Ho count.
    assert (Ecount : count = Z.min numChannels (16 - begChannel))
      by (apply clip_numChannels_min; assumption).
    split; [exact Ecount |]. split; [lia |].
    intros HL Hf Hok. rewrite Ecount in Hf.
    destruct (setChannelsPWM_trace t bufferLength fuel s begChannel
                numChannels pwmAmounts HL Hb Hn Ho Hf)
      as (s' & R & Hlog & _).
    eexists s', _. split; [exact R |]. split; [exact Hlog |].
    assert (Hper : 1 <= channels_per_transaction bufferLength)
      by (unfold channels_per_transaction;
          apply Z.div_le_lower_bound; lia).
    destruct (chunk_plan_shape (channels_per_transaction bufferLength)
                begChannel (Z.min numChannels (16 - begChannel)) Hper
                ltac:(lia)) as (HF & _ & HT).
    set (chunks := chunk_plan _ _ _) in *.
    assert (Hshape : Forall (fun chunk => 0 <= snd chunk) chunks).
    { eapply Forall_impl; [| exact HF]. cbn beta. intros c Hc; lia. }
    destruct (bus_trace_counts t (_phaseBalancer s) (_i2cAddr s)
                (value_at begChannel pwmAmounts) chunks Hshape
                (wire_ends (_i2cWire s))) as [_ Hcnt].
    cbn zeta in Hcnt.
    rewrite issued_all_ok, firstn_all, HT in Hcnt by exact Hok.
    unfold channels_written. rewrite Hcnt, Ecount, Z.mul_comm.
    apply Z.div_mul. discriminate.
  - pose proof (int_max_ge t).
    rewrite !clip_numChannels_min by lia. split; reflexivity.
Qed.

Lemma setChannelsPWM_clips_witness :
  setChannelsPWM AVR 32 16 (sample_device [] []) 16 4 [] =
    Some (sample_device [] []) /\
  clip_numChannels AVR 10 10 = 6 /\
  exists s' trace,
    setChannelsPWM AVR 32 16 (sample_device [] []) 10 10 (repeat 2048 10)
    = Some s' /\
    wire_log (_i2cWire s') = [] ++ trace /\ channels_written trace = 6.
Proof.
  split; [| split].
  - apply (setChannelsPWM_clips AVR 32 16 (sample_device [] []) 16 4 []).
    lia.
  - apply (setChannelsPWM_clips AVR 32 16 (sample_device [] []) 10 10 []).
  - destruct (setChannelsPWM_clips AVR 32 16 (sample_device [] []) 10 10
                (repeat 2048 10)) as (_ & H & _).
    destruct H as (_ & _ & H);
      [lia | lia | vm_compute; discriminate |].
    apply H; [lia | vm_compute; lia | constructor].
Defined.

(** C7: the clipping test adds begin channel and count as [int]s.  With
    begin channel 15 and count 32767 on a 16 bit [int] the sum wraps
    below zero, the test [> 16] fails and the count is not clipped: begin
    channel plus count exceeds 16, and the call goes on past channel 15,
    its first two transactions carrying seven channels each from the
    registers of channel 15 (0x42) and of a channel 22 (0x5E) on.  The
    same happens with count 2147483647 on a 32 bit [int]. *)
Theorem setChannelsPWM_clip_overflow :
  sint AVR (15 + 32767) = -32754 /\
  clip_numChannels AVR 15 32767 = 32767 /\
  16 < 15 + clip_numChannels AVR 15 32767 /\
  clip_numChannels ARM32 15 2147483647 = 2147483647 /\
  exists s',
    setChannelsPWM AVR 32 2 (sample_device [0; 2] []) 15 32767
      (repeat 1000 14) = Some s' /\
    wire_log (_i2cWire s') =
      bus_trace AVR PCA9685_PhaseBalancer_Linear 64
        (value_at 15 (repeat 1000 14)) [(15, 7); (22, 7)] [0; 2] /\
    nth 0 (written_bytes (wire_log (_i2cWire s'))) 0 = 66 /\
    nth 29 (written_bytes (wire_log (_i2cWire s'))) 0 = 94 /\
    channels_written (wire_log (_i2cWire s')) = 14.
Proof.
  split; [reflexivity |]. split; [reflexivity |].
  split; [vm_compute; reflexivity |]. split; [reflexivity |].
  eexists. split; [vm_compute; reflexivity |].
  vm_compute. repeat split.
Qed.

(** ** Read-back claims *)

(** Draining the receive buffer reads every byte in it. *)
Lemma drain_all (rx : list Z) :
  forall s,
    wire_rx (_i2cWire s) = rx ->
    drain (length rx) s =
    with_wire s
      (mkWire (wire_log (_i2cWire s)
               ++ map (fun b => EvRead (Z.land b 255)) rx)
              (wire_ends (_i2cWire s)) (wire_replies (_i2cWire s)) []).
Proof.
  induction rx as [| b rx IH]; intros s Hrx.
  - cbn [drain length map]. rewrite app_nil_r.
    destruct s as [a [l e r x] p i le]. cbn in Hrx. subst x. reflexivity.
  - cbn [drain length]. rewrite IH.
    + unfold i2cWire_read, with_wire. cbn. rewrite Hrx. cbn.
      rewrite <- app_assoc. reflexivity.
    + unfold i2cWire_read. cbn. rewrite Hrx. reflexivity.
Qed.

(** C8: when fewer than the four requested bytes arrive, the read-back
    reads off the bytes that did arrive, sets the last error to 4 and
    returns duty value 0. *)
Theorem getChannelPWM_short_read (t : Target) (s : PCA9685) (channel : Z)
    (reply : list Z) :
  0 <= channel <= 15 -> _isProxyAddresser s = false ->
  u8 (hd 0 (wire_ends (_i2cWire s))) = 0 ->
  hd [] (wire_replies (_i2cWire s)) = reply ->
  (length reply < 4)%nat ->
  let '(duty, s') := getChannelPWM t s channel in
  duty = 0 /\ _lastI2CError s' = 4 /\ wire_rx (_i2cWire s') = [] /\
  wire_log (_i2cWire s') =
    wire_log (_i2cWire s)
    ++ [EvBegin (_i2cAddr s); EvWrite (PCA9685_LED0_REG + 4 * channel);
        EvEnd 0; EvRequest (u8 (_i2cAddr s)) 4 (Z.of_nat (length reply))]
    ++ map (fun b => EvRead (Z.land b 255)) reply.
Proof.
  intros Hc Hproxy Hend Hreply Hlen. unfold getChannelPWM.
  destruct (Z.ltb_spec channel 0) as [C | _]; [lia |].
  destruct (Z.gtb_spec channel 15) as [C | _]; [lia |].
  rewrite Hproxy. cbn [orb].
  rewrite Z.shiftl_mul_pow2 by lia. change (2 ^ 2) with 4.
  rewrite u8_small by (unfold PCA9685_LED0_REG; lia).
  replace (channel * 4) with (4 * channel) by lia.
  unfold i2cWire_endTransmission, i2cWire_write, i2cWire_beginTransmission,
    i2cWire_requestFrom.
  cbn [_i2cWire with_wire with_error emit wire_ends wire_log wire_replies
       wire_rx _i2cAddr _lastI2CError _isProxyAddresser _phaseBalancer].
  rewrite Hend, Hreply. cbn [Z.eqb negb].
  change (Z.to_nat 4) with 4%nat.
  rewrite (firstn_all2 (n := 4) reply) by lia.
  rewrite u8_small by lia.
  destruct (Z.eqb_spec (Z.of_nat (length reply)) 4) as [C | _]; [lia |].
  cbn [negb]. rewrite Nat2Z.id.
  rewrite drain_all by reflexivity.
  cbn [_i2cWire with_wire with_error emit wire_ends wire_log wire_replies
       wire_rx _i2cAddr _lastI2CError _isProxyAddresser _phaseBalancer].
  repeat split. rewrite <- !app_assoc. reflexivity.
Qed.

Lemma getChannelPWM_short_read_witness :
  fst (getChannelPWM AVR (sample_device [0] [[17; 34; 51]]) 5) = 0 /\
  _lastI2CError (snd (getChannelPWM AVR (sample_device [0] [[17; 34; 51]]) 5))
  = 4.
Proof.
  pose proof (getChannelPWM_short_read AVR (sample_device [0] [[17; 34; 51]])
                5 [17; 34; 51] ltac:(lia) eq_refl eq_refl eq_refl
                ltac:(cbn; lia)) as H.
  destruct (getChannelPWM AVR (sample_device [0] [[17; 34; 51]]) 5)
    as [duty s'].
  destruct H as (Hd & He & _). split; assumption.
Defined.

(** ** Servo evaluator claims *)

(** Single precision samples: 1/3, 1/10 and the tie 2^24 + 1. *)
Example f32_samples :
  F32.div (F32.of_Z 1) (F32.of_Z 3) = F32.mk 11184811 (-25) /\
  F32.div (F32.of_Z 1) (F32.of_Z 10) = F32.mk 13421773 (-27) /\
  F32.of_Z 16777217 = F32.mk 1 24.
Proof. vm_compute. repeat split. Qed.

(** The evaluator shifts the angle by +90 before it evaluates the curve,
    so angle 0 is the middle of the linear curve and angle 90 the end of
    the spline. *)
Example pwmForAngle_samples :
  pwmForAngle (ServoEval3 102 307 512) (F32.of_Z 0) = 307 /\
  pwmForAngle (ServoEval3 102 307 512) (F32.of_Z 90) = 512 /\
  pwmForAngle (ServoEval3 102 300 512) (F32.of_Z (-90)) = 102 /\
  pwmForAngle (ServoEval3 102 300 512) (F32.of_Z 90) = 512.
Proof. vm_compute. repeat split. Qed.

(** C9 as stated fails: with calibration points (102, 307, 512) angle 0
    does not give 102 up to rounding, and with (102, 300, 512) angle 90
    does not give 300. *)
Lemma servo_angles_counterexample :
  ~ (_isCSpline (ServoEval3 102 307 512) = false /\
     Z.abs (pwmForAngle (ServoEval3 102 307 512) (F32.of_Z 0) - 102) <= 1 /\
     Z.abs (pwmForAngle (ServoEval3 102 307 512) (F32.of_Z 180) - 512) <= 1 /\
     _isCSpline (ServoEval3 102 300 512) = true /\
     pwmForAngle (ServoEval3 102 300 512) (F32.of_Z 90) = 300).
Proof.
  intros (_ & H & _).
  assert (E : pwmForAngle (ServoEval3 102 307 512) (F32.of_Z 0) = 307)
    by (vm_compute; reflexivity).
  rewrite E in H. lia.
Qed.

(** C9, amended: with calibration points (102, 307, 512) the evaluator
    is linear and gives 102 at angle -90 and 512 at angle 180; with
    (102, 300, 512) it is a cubic spline and gives exactly 300 at
    angle 0. *)
Theorem servo_calibration_points :
  _isCSpline (ServoEval3 102 307 512) = false /\
  pwmForAngle (ServoEval3 102 307 512) (F32.of_Z (-90)) = 102 /\
  pwmForAngle (ServoEval3 102 307 512) (F32.of_Z 180) = 512 /\
  _isCSpline (ServoEval3 102 300 512) = true /\
  pwmForAngle (ServoEval3 102 300 512) (F32.of_Z 0) = 300.
Proof. vm_compute. repeat split. Qed.

(** * Further properties of the driver *)

(** ** Phase cycles under every scheme *)

(** A window inside the cycle decodes to its width. *)
Lemma decodePhaseCycle_window (t : Target) (b e : Z) :
  0 <= b <= e -> e <= 4095 -> decodePhaseCycle t b e = e - b.
Proof.
  intros Hb He. unfold decodePhaseCycle, PCA9685_PWM_FULL.
  destruct (Z.geb_spec e 4096) as [G | _]; [lia |].
  destruct (Z.geb_spec b 4096) as [G | _]; [lia |].
  destruct (Z.leb_spec b e) as [_ | G]; [| lia].
  rewrite u16_arith_small, u16_small by lia. reflexivity.
Qed.

(** The window of a proper duty value, for every scheme and channel. *)
Lemma getPhaseCycle_window (t : Target) (pb : PCA9685_PhaseBalancer)
    (channel pwmAmount : Z) :
  1 <= pwmAmount <= 4095 ->
  exists b e,
    getPhaseCycle t pb channel pwmAmount = (b, e) /\
    0 <= b /\ b < e /\ e <= 4095 /\ e - b = pwmAmount.
Proof.
  intros Hd.
  destruct (Z.eq_dec channel PCA9685_ALLLED_CHANNEL) as [Ea | Na].
  { exists 0, pwmAmount. rewrite getPhaseCycle_unshifted by auto.
    repeat split; lia. }
  destruct pb;
    try (exists 0, pwmAmount;
         rewrite getPhaseCycle_unshifted by (auto; left; discriminate);
         repeat split; lia).
  destruct (getPhaseCycle_linear_shape t channel pwmAmount Hd Na)
    as (b0 & Hb0 & _ & E).
  eexists _, _. split; [exact E |]. lia.
Qed.

(** X1: for every scheme, channel and target the window programmed for a
    duty value in [1,4095] lies inside one cycle, begin before end, and
    is exactly as wide as the duty value. *)
Theorem window_never_wraps (t : Target) (pb : PCA9685_PhaseBalancer)
    (channel dutyValue : Z) :
  1 <= dutyValue <= 4095 ->
  let '(phaseBegin, phaseEnd) := getPhaseCycle t pb channel dutyValue in
  0 <= phaseBegin /\ phaseBegin < phaseEnd /\ phaseEnd <= 4095 /\
  phaseEnd - phaseBegin = dutyValue.
Proof.
  intros Hd.
  destruct (getPhaseCycle_window t pb channel dutyValue Hd)
    as (b & e & -> & H). exact H.
Qed.

Lemma window_never_wraps_witness :
  1 <= 3000 <= 4095 /\
  fst (getPhaseCycle ARM32 PCA9685_PhaseBalancer_Linear 15 3000)
  < snd (getPhaseCycle ARM32 PCA9685_PhaseBalancer_Linear 15 3000).
Proof.
  split; [lia |].
  pose proof (window_never_wraps ARM32 PCA9685_PhaseBalancer_Linear 15 3000
                ltac:(lia)) as H.
  destruct (getPhaseCycle ARM32 PCA9685_PhaseBalancer_Linear 15 3000)
    as [b e].
  cbn [fst snd]. lia.
Defined.

(** The three shapes of a computed pair. *)
Lemma getPhaseCycle_cases (t : Target) (pb : PCA9685_PhaseBalancer)
    (channel dutyValue : Z) :
  0 <= dutyValue < 65536 ->
  (dutyValue = 0 /\ getPhaseCycle t pb channel dutyValue = (0, 4096)) \/
  (4096 <= dutyValue /\ getPhaseCycle t pb channel dutyValue = (4096, 0)) \/
  (exists b e,
     getPhaseCycle t pb channel dutyValue = (b, e) /\
     0 <= b /\ b < e /\ e <= 4095 /\ e - b = dutyValue).
Proof.
  intros Hd.
  destruct (Z.eq_dec dutyValue 0) as [-> | Hz].
  { left. split; [reflexivity | apply getPhaseCycle_off]. }
  destruct (Z_le_gt_dec 4096 dutyValue) as [Hf | Hf].
  { right. left. split; [exact Hf | apply getPhaseCycle_on; exact Hf]. }
  right. right. apply getPhaseCycle_window. lia.
Qed.

(** X2: decoding the pair computed for a 16 bit duty value gives the duty
    value capped at 4096, for every scheme, channel and target. *)
Theorem decode_getPhaseCycle (t : Target) (pb : PCA9685_PhaseBalancer)
    (channel dutyValue : Z) :
  0 <= dutyValue < 65536 ->
  decodePhaseCycle t (fst (getPhaseCycle t pb channel dutyValue))
                     (snd (getPhaseCycle t pb channel dutyValue))
  = Z.min dutyValue 4096.
Proof.
  intros Hd.
  destruct (getPhaseCycle_cases t pb channel dutyValue Hd)
    as [[-> ->] | [[Hf ->] | (b & e & -> & H)]]; cbn [fst snd].
  - reflexivity.
  - rewrite Z.min_r by lia. reflexivity.
  - rewrite decodePhaseCycle_window by lia. lia.
Qed.

Lemma decode_getPhaseCycle_witness :
  0 <= 60000 < 65536 /\
  decodePhaseCycle AVR
    (fst (getPhaseCycle AVR PCA9685_PhaseBalancer_Linear 9 60000))
    (snd (getPhaseCycle AVR PCA9685_PhaseBalancer_Linear 9 60000))
  = 4096.
Proof.
  split; [lia |].
  apply (decode_getPhaseCycle AVR PCA9685_PhaseBalancer_Linear 9 60000). lia.
Defined.

(** X3: the phase balancer matters on named channels under the linear
    scheme only: every other scheme, and the ALLLED channel under any
    scheme, gives the pair computed without balancing. *)
Theorem only_linear_shifts (t : Target) (pb : PCA9685_PhaseBalancer)
    (channel pwmAmount : Z) :
  pb <> PCA9685_PhaseBalancer_Linear \/ channel = PCA9685_ALLLED_CHANNEL ->
  getPhaseCycle t pb channel pwmAmount
  = getPhaseCycle t PCA9685_PhaseBalancer_None channel pwmAmount.
Proof.
  intros [Hp | Hc].
  - destruct pb; try reflexivity. now elim Hp.
  - subst channel. unfold getPhaseCycle.
    destruct (pwmAmount =? 0); [reflexivity |].
    destruct (pwmAmount >=? PCA9685_PWM_FULL); reflexivity.
Qed.

Lemma only_linear_shifts_witness :
  getPhaseCycle AVR PCA9685_PhaseBalancer_Linear (-1) 2000
  = getPhaseCycle AVR PCA9685_PhaseBalancer_None (-1) 2000.
Proof.
  apply (only_linear_shifts AVR PCA9685_PhaseBalancer_Linear (-1) 2000).
  right. reflexivity.
Defined.

(** ** Single channel writes *)

Lemma writeChannelBegin_scheme (s : PCA9685) (channel : Z) :
  _phaseBalancer (writeChannelBegin s channel) = _phaseBalancer s.
Proof. reflexivity. Qed.

(** X4: a multi-channel write of one channel is the single channel
    write: same bus calls, same device object afterwards, also for an
    invalid channel (both do nothing). *)
Theorem setChannelsPWM_one_channel (t : Target) (bufferLength : Z)
    (fuel : nat) (s : PCA9685) (channel pwmAmount : Z) (more : list Z) :
  5 <= bufferLength ->
  setChannelsPWM t bufferLength (S fuel) s channel 1 (pwmAmount :: more)
  = Some (setChannelPWM t s channel pwmAmount).
Proof.
  intros HL. unfold setChannelsPWM, setChannelPWM.
  destruct ((channel <? 0) || (channel >? 15)) eqn:Hg.
  { cbn [orb]. reflexivity. }
  apply orb_false_elim in Hg. destruct Hg as [H0 H15].
  apply Z.ltb_ge in H0.
  assert (Hc : channel <= 15).
  { destruct (Z.gtb_spec channel 15); [discriminate | lia]. }
  change (1 <? 0) with false. cbn [orb].
  pose proof (int_max_ge t).
  rewrite clip_numChannels_min by lia.
  rewrite Z.min_l by lia.
  cbn [setChannelsPWM_loop]. change (1 >? 0) with true. cbn iota.
  rewrite Z.quot_div_nonneg by lia.
  assert (Hper : 1 <= (bufferLength - 1) / 4)
    by (apply Z.div_le_lower_bound; lia).
  rewrite Z.min_l by lia. change (Z.to_nat 1) with 1%nat.
  cbn [setChannelsPWM_inner hd tl].
  rewrite writeChannelBegin_scheme.
  destruct (getPhaseCycle t (_phaseBalancer s) channel pwmAmount) as [b e].
  change (1 - 1) with 0.
  destruct (negb (_lastI2CError _ =? 0)); [reflexivity |].
  destruct fuel; reflexivity.
Qed.

Lemma setChannelsPWM_one_channel_witness :
  setChannelsPWM AVR 32 1 (sample_device [] []) 4 1 [1000]
  = Some (setChannelPWM AVR (sample_device [] []) 4 1000).
Proof.
  apply (setChannelsPWM_one_channel AVR 32 0 (sample_device [] []) 4 1000 []).
  lia.
Defined.

(** X5: switching a channel fully on is writing a duty value of 4096 or
    more, under every scheme. *)
Theorem setChannelOn_is_full_duty (t : Target) (s : PCA9685)
    (channel pwmAmount : Z) :
  4096 <= pwmAmount ->
  setChannelOn s channel = setChannelPWM t s channel pwmAmount.
Proof.
  intros Hd. unfold setChannelOn, setChannelPWM.
  destruct ((channel <? 0) || (channel >? 15)); [reflexivity |].
  rewrite getPhaseCycle_on by exact Hd. reflexivity.
Qed.

Lemma setChannelOn_is_full_duty_witness :
  setChannelOn (sample_device [] []) 2
  = setChannelPWM AVR (sample_device [] []) 2 4096.
Proof.
  apply (setChannelOn_is_full_duty AVR (sample_device [] []) 2 4096). lia.
Defined.

(** X6: switching a channel fully off is writing duty value 0, under
    every scheme. *)
Theorem setChannelOff_is_zero_duty (t : Target) (s : PCA9685) (channel : Z) :
  setChannelOff s channel = setChannelPWM t s channel 0.
Proof.
  unfold setChannelOff, setChannelPWM.
  destruct ((channel <? 0) || (channel >? 15)); [reflexivity |].
  rewrite getPhaseCycle_off. reflexivity.
Qed.

Lemma lowByte_mod (w : Z) : lowByte w = w mod 256.
Proof.
  unfold lowByte. change 255 with (Z.ones 8). rewrite Z.land_ones by lia.
  reflexivity.
Qed.

Lemma highByte_div (w : Z) : 0 <= w < 65536 -> highByte w = w / 256.
Proof.
  intros H. unfold highByte. rewrite Z.shiftr_div_pow2 by lia.
  change (2 ^ 8) with 256. apply u8_small.
  split; [apply Z.div_pos; lia | apply Z.div_lt_upper_bound; lia].
Qed.

(** X7: a write to all channels is one transaction at the ALLLED
    register whose window starts at 0 whatever the phase balancing
    scheme: begin 0, end the duty value, low byte first. *)
Theorem setAllChannelsPWM_trace (t : Target) (s : PCA9685) (dutyValue : Z) :
  1 <= dutyValue <= 4095 ->
  let err := u8 (hd 0 (wire_ends (_i2cWire s))) in
  let s' := setAllChannelsPWM t s dutyValue in
  wire_log (_i2cWire s') =
    wire_log (_i2cWire s)
    ++ [EvBegin (_i2cAddr s); EvWrite 250; EvWrite 0; EvWrite 0;
        EvWrite (dutyValue mod 256); EvWrite (dutyValue / 256); EvEnd err] /\
  _lastI2CError s' = err.
Proof.
  intros Hd err s'. subst s'. unfold setAllChannelsPWM.
  rewrite writeChannelBegin_scheme.
  rewrite getPhaseCycle_unshifted by auto.
  rewrite writeChannelPWM_log, writeChannelEnd_log.
  rewrite !lowByte_mod, !highByte_div by lia.
  change (0 mod 256) with 0. change (0 / 256) with 0.
  unfold writeChannelBegin.
  change (negb (PCA9685_ALLLED_CHANNEL =? PCA9685_ALLLED_CHANNEL)) with false.
  cbn iota. rewrite i2cWire_write_log.
  unfold i2cWire_beginTransmission.
  cbn [append_log with_wire with_error emit _i2cWire wire_log wire_ends
       wire_replies wire_rx _i2cAddr _lastI2CError _phaseBalancer
       _isProxyAddresser].
  split; [| reflexivity].
  rewrite <- !app_assoc. reflexivity.
Qed.

Lemma setAllChannelsPWM_trace_witness :
  wire_log (_i2cWire (setAllChannelsPWM AVR (sample_device [] []) 1000)) =
  [EvBegin 64; EvWrite 250; EvWrite 0; EvWrite 0; EvWrite 232; EvWrite 3;
   EvEnd 0].
Proof.
  exact (proj1 (setAllChannelsPWM_trace AVR (sample_device [] []) 1000
                  ltac:(lia))).
Defined.

(** ** Transactions and the transmit buffer *)

Lemma longest_burst_payload (t : Target) (pb : PCA9685_PhaseBalancer)
    (value_of : Z -> Z) (count : nat) :
  forall first rest run best,
    longest_burst (payload t pb value_of first count ++ rest) run best
    = longest_burst rest (run + 4 * count)%nat best.
Proof.
  induction count as [| k IH]; intros first rest run best.
  - cbn [payload app]. f_equal. lia.
  - cbn [payload]. unfold channel_bytes.
    destruct (getPhaseCycle t pb first (value_of first)) as [b e].
    rewrite <- app_assoc. cbn [app longest_burst].
    rewrite IH. f_equal. lia.
Qed.

Lemma longest_burst_transaction (t : Target) (pb : PCA9685_PhaseBalancer)
    (addr : Z) (value_of : Z -> Z) (chunk : Z * Z) (err : Z)
    (rest : list Event) (best : nat) :
  longest_burst (transaction t pb addr value_of chunk err ++ rest) O best
  = longest_burst rest O
      (Nat.max (1 + 4 * Z.to_nat (snd chunk)) best).
Proof.
  unfold transaction. rewrite <- !app_assoc.
  cbn [app longest_burst]. rewrite longest_burst_payload.
  cbn [app longest_burst]. rewrite Nat.max_0_l. reflexivity.
Qed.

Lemma longest_burst_bus_trace (t : Target) (pb : PCA9685_PhaseBalancer)
    (addr : Z) (value_of : Z -> Z) (limit : nat) (chunks : list (Z * Z)) :
  Forall (fun chunk => (1 + 4 * Z.to_nat (snd chunk) <= limit)%nat) chunks ->
  forall ends best,
    (best <= limit)%nat ->
    (longest_burst (bus_trace t pb addr value_of chunks ends) O best
     <= limit)%nat.
Proof.
  induction 1 as [| chunk rest Hc _ IH]; intros ends best Hbest.
  - cbn [bus_trace longest_burst]. lia.
  - cbn [bus_trace]. rewrite longest_burst_transaction.
    destruct (u8 (hd 0 ends) =? 0).
    + apply IH. lia.
    + cbn [longest_burst]. lia.
Qed.

(** X8: whatever the bus reports, a multi-channel write never queues
    more bytes in one transaction than the transmit buffer holds. *)
Theorem setChannelsPWM_fits_buffer (t : Target) (bufferLength : Z)
    (fuel : nat) (s : PCA9685) (begChannel numChannels : Z)
    (pwmAmounts : list Z) :
  5 <= bufferLength ->
  0 <= begChannel <= 15 -> 0 <= numChannels ->
  begChannel + numChannels <= int_max t ->
  (Z.to_nat (Z.min numChannels (16 - begChannel)) <= fuel)%nat ->
  exists s' trace,
    setChannelsPWM t bufferLength fuel s begChannel numChannels pwmAmounts
    = Some s' /\
    wire_log (_i2cWire s') = wire_log (_i2cWire s) ++ trace /\
    Z.of_nat (longest_burst trace O O) <= bufferLength.
Proof.
  intros HL Hb Hn Ho Hf.
  destruct (setChannelsPWM_trace t bufferLength fuel s begChannel numChannels
              pwmAmounts HL Hb Hn Ho Hf) as (s' & R & Hlog & _).
  eexists s', _. split; [exact R |]. split; [exact Hlog |].
  assert (Hper : 1 <= channels_per_transaction bufferLength)
    by (unfold channels_per_transaction; apply Z.div_le_lower_bound; lia).
  destruct (chunk_plan_shape (channels_per_transaction bufferLength)
              begChannel (Z.min numChannels (16 - begChannel)) Hper
              ltac:(lia)) as (HF & _).
  assert (Hfit : 1 + 4 * channels_per_transaction bufferLength
                 <= bufferLength).
  { unfold channels_per_transaction.
    pose proof (Z.mul_div_le (bufferLength - 1) 4 ltac:(lia)). lia. }
  match goal with
  | |- Z.of_nat ?n <= _ =>
      assert (Hle : (n <= Z.to_nat bufferLength)%nat); [| lia]
  end.
  apply longest_burst_bus_trace; [| lia].
  eapply Forall_impl; [| exact HF]. cbn beta. intros c Hc. lia.
Qed.

Lemma setChannelsPWM_fits_buffer_witness :
  exists s' trace,
    setChannelsPWM AVR 32 16 (sample_device [0; 2] []) 0 16 (repeat 100 16)
    = Some s' /\
    wire_log (_i2cWire s') = [] ++ trace /\
    Z.of_nat (longest_burst trace O O) <= 32.
Proof.
  apply (setChannelsPWM_fits_buffer AVR 32 16 (sample_device [0; 2] []) 0 16
           (repeat 100 16));
    [lia | lia | lia | vm_compute; discriminate | vm_compute; lia].
Defined.

(** X9: when every close succeeds, a multi-channel write opens as few
    transactions as the buffer allows: the clipped count divided by the
    channels per transaction, rounded up. *)
Theorem setChannelsPWM_transaction_count (t : Target) (bufferLength : Z)
    (fuel : nat) (s : PCA9685) (begChannel numChannels : Z)
    (pwmAmounts : list Z) :
  5 <= bufferLength ->
  0 <= begChannel <= 15 -> 0 <= numChannels ->
  begChannel + numChannels <= int_max t ->
  (Z.to_nat (Z.min numChannels (16 - begChannel)) <= fuel)%nat ->
  Forall (fun e => e = 0) (wire_ends (_i2cWire s)) ->
  let count := Z.min numChannels (16 - begChannel) in
  let per := (bufferLength - 1) / 4 in
  exists s' trace,
    setChannelsPWM t bufferLength fuel s begChannel numChannels pwmAmounts
    = Some s' /\
    wire_log (_i2cWire s') = wire_log (_i2cWire s) ++ trace /\
    Z.of_nat (length (filter is_begin trace)) = (count + per - 1) / per /\
    _lastI2CError s' = (if count =? 0 then _lastI2CError s else 0).
Proof.
  intros HL Hb Hn Ho Hf Hok count per.
  destruct (setChannelsPWM_trace t bufferLength fuel s begChannel numChannels
              pwmAmounts HL Hb Hn Ho Hf) as (s' & R & Hlog & _ & Herr).
  eexists s', _. split; [exact R |]. split; [exact Hlog |].
  assert (Hper : 1 <= per)
    by (unfold per; apply Z.div_le_lower_bound; lia).
  fold count in Hlog, Herr. fold (channels_per_transaction bufferLength) in per.
  fold per in Hlog, Herr.
  destruct (chunk_plan_shape per begChannel count Hper ltac:(lia))
    as (HF & _).
  assert (Hshape : Forall (fun chunk => 0 <= snd chunk)
                     (chunk_plan per begChannel count)).
  { eapply Forall_impl; [| exact HF]. cbn beta. intros c Hc; lia. }
  destruct (bus_trace_counts t (_phaseBalancer s) (_i2cAddr s)
              (value_at begChannel pwmAmounts) _ Hshape
              (wire_ends (_i2cWire s))) as [Hbeg _].
  cbn zeta in Hbeg. rewrite issued_all_ok in Hbeg, Herr by exact Hok.
  assert (Hlen : Z.of_nat (length (chunk_plan per begChannel count))
                 = (count + per - 1) / per).
  { unfold chunk_plan. rewrite length_map, length_seq.
    apply Z2Nat.id. apply Z.div_pos; lia. }
  split; [rewrite <- Hlen; f_equal; exact Hbeg |].
  change (_lastI2CError s' =
          (if count =? 0 then _lastI2CError s else 0)).
  rewrite Herr.
  destruct (Z.eqb_spec count 0) as [E0 | N0].
  - assert (Hq : (count + per - 1) / per = 0) by (apply Z.div_small; lia).
    rewrite Hq in Hlen.
    destruct (length (chunk_plan per begChannel count)); [reflexivity | lia].
  - destruct (length (chunk_plan per begChannel count)) as [| i] eqn:El.
    + exfalso. assert (1 <= (count + per - 1) / per)
        by (apply Z.div_le_lower_bound; lia). lia.
    + clear - Hok. revert i.
      induction Hok as [| e ends He _ IH]; intros [| i]; cbn; auto.
      subst e. reflexivity.
Qed.

Lemma setChannelsPWM_transaction_count_witness :
  exists s' trace,
    setChannelsPWM AVR 32 16 (sample_device [] []) 0 16 (repeat 100 16)
    = Some s' /\
    wire_log (_i2cWire s') = [] ++ trace /\
    Z.of_nat (length (filter is_begin trace)) = 3 /\
    _lastI2CError s' = 0.
Proof.
  apply (setChannelsPWM_transaction_count AVR 32 16 (sample_device [] []) 0
           16 (repeat 100 16));
    [lia | lia | lia | vm_compute; discriminate | vm_compute; lia
    | constructor].
Defined.


(** ** Read-back *)

Lemma decodePhaseCycle_bounded (t : Target) (b e : Z) :
  0 <= b < 65536 -> 0 <= e < 65536 ->
  0 <= decodePhaseCycle t b e <= 4096.
Proof.
  intros Hb He. unfold decodePhaseCycle, PCA9685_PWM_FULL.
  destruct (Z.geb_spec e 4096) as [G1 | G1]; [lia |].
  destruct (Z.geb_spec b 4096) as [G2 | G2]; [lia |].
  destruct (Z.leb_spec b e) as [L | L].
  - rewrite u16_arith_small, u16_small by lia. lia.
  - rewrite (u16_arith_small t (e + 4096)) by lia.
    rewrite u16_arith_small, u16_small by lia. lia.
Qed.

(** X10: whatever the bus delivers, a read-back returns a duty value
    between 0 and 4096. *)
Theorem getChannelPWM_bounded (t : Target) (s : PCA9685) (channel : Z) :
  0 <= fst (getChannelPWM t s channel) <= 4096.
Proof.
  unfold getChannelPWM.
  destruct ((channel <? 0) || (channel >? 15) || _isProxyAddresser s);
    [cbn [fst]; lia |].
  unfold i2cWire_endTransmission, i2cWire_requestFrom, i2cWire_read.
  cbn zeta.
  destruct (negb (_ =? 0)); [cbn [fst]; lia |].
  destruct (negb (_ =? 4)); [cbn [fst]; lia |].
  cbn [fst]. apply decodePhaseCycle_bounded; apply u16_range.
Qed.

(** X11: when the write of the register address is not acknowledged, a
    read-back returns 0 with the transport's error as last error, and
    requests nothing from the device. *)
Theorem getChannelPWM_address_error (t : Target) (s : PCA9685)
    (channel err : Z) :
  0 <= channel <= 15 -> _isProxyAddresser s = false ->
  u8 (hd 0 (wire_ends (_i2cWire s))) = err -> err <> 0 ->
  let '(duty, s') := getChannelPWM t s channel in
  duty = 0 /\ _lastI2CError s' = err /\
  wire_log (_i2cWire s') =
    wire_log (_i2cWire s)
    ++ [EvBegin (_i2cAddr s); EvWrite (PCA9685_LED0_REG + 4 * channel);
        EvEnd err] /\
  wire_replies (_i2cWire s') = wire_replies (_i2cWire s).
Proof.
  intros Hc Hproxy Hend Herr. unfold getChannelPWM.
  destruct (Z.ltb_spec channel 0) as [C | _]; [lia |].
  destruct (Z.gtb_spec channel 15) as [C | _]; [lia |].
  rewrite Hproxy. cbn [orb].
  rewrite Z.shiftl_mul_pow2 by lia. change (2 ^ 2) with 4.
  rewrite u8_small by (unfold PCA9685_LED0_REG; lia).
  replace (channel * 4) with (4 * channel) by lia.
  unfold i2cWire_endTransmission, i2cWire_write, i2cWire_beginTransmission.
  cbn [_i2cWire with_wire with_error emit wire_ends wire_log wire_replies
       wire_rx _i2cAddr _lastI2CError _isProxyAddresser _phaseBalancer].
  rewrite Hend.
  destruct (Z.eqb_spec err 0) as [C | _]; [contradiction |].
  cbn [negb _i2cWire with_wire with_error emit wire_ends wire_log
       wire_replies wire_rx _i2cAddr _lastI2CError].
  repeat split. rewrite <- !app_assoc. reflexivity.
Qed.

Lemma getChannelPWM_address_error_witness :
  fst (getChannelPWM AVR (sample_device [2] [[1; 2; 3; 4]]) 5) = 0 /\
  _lastI2CError (snd (getChannelPWM AVR (sample_device [2] [[1; 2; 3; 4]]) 5))
  = 2.
Proof.
  pose proof (getChannelPWM_address_error AVR
                (sample_device [2] [[1; 2; 3; 4]]) 5 2 ltac:(lia) eq_refl
                eq_refl ltac:(lia)) as H.
  destruct (getChannelPWM AVR (sample_device [2] [[1; 2; 3; 4]]) 5)
    as [duty s'].
  destruct H as (Hd & He & _). split; assumption.
Defined.

(** Two bytes, low byte first, make up the 16 bit value again. *)
Lemma bytes_reassemble (w : Z) :
  0 <= w < 65536 ->
  u16 (Z.lor (Z.land (lowByte w) 255) (Z.shiftl (Z.land (highByte w) 255) 8))
  = w.
Proof.
  intros Hw. rewrite lowByte_mod, highByte_div by exact Hw.
  assert (Hh : 0 <= w / 256 < 256)
    by (split; [apply Z.div_pos; lia | apply Z.div_lt_upper_bound; lia]).
  assert (Hl : 0 <= w mod 256 < 256) by (apply Z.mod_pos_bound; lia).
  change 255 with (Z.ones 8). rewrite !Z.land_ones by lia.
  rewrite Z.shiftl_mul_pow2 by lia.
  change (w mod 256) with (w mod 2 ^ 8). change (w / 256) with (w / 2 ^ 8).
  change (2 ^ 8) with 256 in Hh, Hl |- *.
  rewrite (Z.mod_small (w mod 256)) by exact Hl.
  rewrite (Z.mod_small (w / 256)) by exact Hh.
  assert (Hz : Z.land (w mod 2 ^ 8) (w / 256 * 2 ^ 8) = 0).
  { apply Z.bits_inj'. intros n Hn. rewrite Z.land_spec, Z.bits_0.
    destruct (Z_lt_ge_dec n 8) as [Hlt | Hge].
    - rewrite (Z.mul_pow2_bits_low (w / 256) 8 n) by lia.
      apply andb_false_r.
    - rewrite (Z.mod_pow2_bits_high w 8 n) by lia. reflexivity. }
  change (2 ^ 8) with 256 in Hz.
  rewrite <- Z.lxor_lor, <- Z.add_nocarry_lxor by exact Hz.
  pose proof (Z.div_mod w 256 ltac:(lia)).
  replace (w mod 256 + w / 256 * 256) with w by lia.
  apply u16_small. lia.
Qed.

Lemma setChannelPWM_written (t : Target) (s : PCA9685)
    (channel pwmAmount : Z) :
  0 <= channel <= 15 ->
  tl (written_bytes (new_events s (setChannelPWM t s channel pwmAmount)))
  = [lowByte (fst (getPhaseCycle t (_phaseBalancer s) channel pwmAmount));
     highByte (fst (getPhaseCycle t (_phaseBalancer s) channel pwmAmount));
     lowByte (snd (getPhaseCycle t (_phaseBalancer s) channel pwmAmount));
     highByte (snd (getPhaseCycle t (_phaseBalancer s) channel pwmAmount))].
Proof.
  intros Hc. unfold setChannelPWM, new_events.
  destruct (Z.ltb_spec channel 0) as [C | _]; [lia |].
  destruct (Z.gtb_spec channel 15) as [C | _]; [lia |].
  cbn [orb]. rewrite writeChannelBegin_scheme.
  destruct (getPhaseCycle t (_phaseBalancer s) channel pwmAmount) as [b e].
  rewrite writeChannelPWM_log, writeChannelEnd_log.
  rewrite writeChannelBegin_log by exact Hc.
  cbn [append_log with_wire with_error _i2cWire wire_log fst snd].
  rewrite <- !app_assoc.
  rewrite skipn_app, skipn_all, Nat.sub_diag. reflexivity.
Qed.

(** X12: if the device answers a read-back with the four bytes the last
    single channel write put into the channel's registers, the read-back
    returns the duty value written, capped at 4096, whatever the phase
    balancing scheme, and leaves no error. *)
Theorem setChannelPWM_getChannelPWM (t : Target) (writer reader : PCA9685)
    (channel dutyValue : Z) :
  0 <= channel <= 15 -> 0 <= dutyValue < 65536 ->
  _isProxyAddresser reader = false ->
  u8 (hd 0 (wire_ends (_i2cWire reader))) = 0 ->
  hd [] (wire_replies (_i2cWire reader))
  = tl (written_bytes
          (new_events writer (setChannelPWM t writer channel dutyValue))) ->
  let '(duty, reader') := getChannelPWM t reader channel in
  duty = Z.min dutyValue 4096 /\ _lastI2CError reader' = 0.
Proof.
  intros Hc Hd Hproxy Hend Hreply.
  rewrite setChannelPWM_written in Hreply by exact Hc.
  assert (Hpair :
            exists b e,
              getPhaseCycle t (_phaseBalancer writer) channel dutyValue
              = (b, e) /\
              0 <= b < 65536 /\ 0 <= e < 65536 /\
              decodePhaseCycle t b e = Z.min dutyValue 4096).
  { destruct (getPhaseCycle_cases t (_phaseBalancer writer) channel
                dutyValue Hd)
      as [[-> E] | [[Hf E] | (b & e & E & H)]]; rewrite E.
    - exists 0, 4096. repeat split; try lia.
    - exists 4096, 0. repeat split; try lia.
      rewrite Z.min_r by lia. reflexivity.
    - exists b, e. repeat split; try lia.
      rewrite decodePhaseCycle_window by lia. lia. }
  destruct Hpair as (b & e & E & Hb & He & Hdec). rewrite E in Hreply.
  cbn [fst snd] in Hreply.
  unfold getChannelPWM.
  destruct (Z.ltb_spec channel 0) as [C | _]; [lia |].
  destruct (Z.gtb_spec channel 15) as [C | _]; [lia |].
  rewrite Hproxy. cbn [orb].
  unfold i2cWire_endTransmission, i2cWire_write, i2cWire_beginTransmission,
    i2cWire_requestFrom, i2cWire_read.
  cbn [_i2cWire with_wire with_error emit wire_ends wire_log wire_replies
       wire_rx _i2cAddr _lastI2CError _isProxyAddresser _phaseBalancer].
  rewrite Hend, Hreply. cbn [Z.eqb negb].
  change (Z.to_nat 4) with 4%nat. cbn [firstn length].
  change (u8 (Z.of_nat 4) =? 4) with true.
  cbn [negb hd tl _i2cWire with_wire with_error emit wire_ends wire_log
       wire_replies wire_rx _i2cAddr _lastI2CError].
  rewrite !bytes_reassemble by lia.
  split; [exact Hdec | reflexivity].
Qed.

Lemma setChannelPWM_getChannelPWM_witness :
  fst (getChannelPWM AVR (sample_device [0] [[95; 0; 255; 15]]) 15) = 4000.
Proof.
  pose proof (setChannelPWM_getChannelPWM AVR (sample_device [] [])
                (sample_device [0] [[95; 0; 255; 15]]) 15 4000
                ltac:(lia) ltac:(lia) eq_refl eq_refl eq_refl) as H.
  destruct (getChannelPWM AVR (sample_device [0] [[95; 0; 255; 15]]) 15)
    as [duty s'].
  destruct H as [Hd _]. exact Hd.
Defined.

(** ** Device configuration *)

(** X13: the MODE2 value is a round trip for proper settings: the bits of
    the value give back the four output modes, and the three reserved
    top bits stay clear. *)
Theorem getMode2Value_roundtrip (m : PCA9685_Modes) :
  0 <= getMode2Value m < 32 /\
  (modes_defined m = true -> modes_of_mode2 (getMode2Value m) = m).
Proof.
  destruct m as [d e x u].
  split.
  - destruct d, e, x, u; vm_compute; split; congruence.
  - destruct d, e, x, u; intros H; try discriminate H; reflexivity.
Qed.

Lemma getMode2Value_roundtrip_witness :
  modes_of_mode2
    (getMode2Value
       (mkModes PCA9685_OutputDriverMode_TotemPole
                PCA9685_OutputEnabledMode_Inverted
                PCA9685_OutputDisabledMode_Floating
                PCA9685_ChannelUpdateMode_AfterAck))
  = mkModes PCA9685_OutputDriverMode_TotemPole
            PCA9685_OutputEnabledMode_Inverted
            PCA9685_OutputDisabledMode_Floating
            PCA9685_ChannelUpdateMode_AfterAck.
Proof.
  apply (getMode2Value_roundtrip
           (mkModes PCA9685_OutputDriverMode_TotemPole
                    PCA9685_OutputEnabledMode_Inverted
                    PCA9685_OutputDisabledMode_Floating
                    PCA9685_ChannelUpdateMode_AfterAck)).
  reflexivity.
Defined.

(** A property checked on every byte holds for every byte. *)
Lemma forall_byte (P : Z -> bool) :
  forallb P (map Z.of_nat (seq 0 256)) = true ->
  forall a, 0 <= a < 256 -> P a = true.
Proof.
  intros H a Ha. rewrite forallb_forall in H. apply H.
  apply in_map_iff. exists (Z.to_nat a). split; [lia |].
  apply in_seq. lia.
Qed.

Lemma lor_pow2_small (k r : Z) :
  0 <= k -> 0 <= r < 2 ^ k -> Z.lor (2 ^ k) r = 2 ^ k + r.
Proof.
  intros Hk Hr.
  assert (Hz : Z.land (2 ^ k) r = 0).
  { apply Z.bits_inj'. intros n Hn. rewrite Z.land_spec, Z.bits_0.
    rewrite Z.pow2_bits_eqb by lia.
    destruct (Z.eqb_spec k n) as [-> | _]; [| reflexivity].
    cbn [andb]. apply Z.testbit_false; [lia |].
    rewrite Z.div_small by lia. reflexivity. }
  rewrite <- Z.lxor_lor, <- Z.add_nocarry_lxor by exact Hz. reflexivity.
Qed.

Lemma writeRegister_log (s : PCA9685) (regAddress value : Z) :
  writeRegister s regAddress value =
  with_wire
    (with_error s (u8 (hd 0 (wire_ends (_i2cWire s)))))
    (mkWire (wire_log (_i2cWire s)
             ++ [EvBegin (_i2cAddr s); EvWrite regAddress; EvWrite value;
                 EvEnd (u8 (hd 0 (wire_ends (_i2cWire s))))])
            (tl (wire_ends (_i2cWire s))) (wire_replies (_i2cWire s))
            (wire_rx (_i2cWire s))).
Proof.
  unfold writeRegister, i2cWire_endTransmission, i2cWire_write,
    i2cWire_beginTransmission.
  cbn [snd _i2cWire with_wire with_error emit wire_ends wire_log wire_replies
       wire_rx _i2cAddr _lastI2CError _isProxyAddresser _phaseBalancer].
  rewrite <- !app_assoc. reflexivity.
Qed.

(** X14: on a device that is not a proxy addresser and with a supported
    combination of modes, [init] maps the address into 0x40..0x7F keeping
    its low six bits, stores the modes and the scheme, and writes MODE1
    (restart and auto-increment) and then MODE2, the second write also
    when the first one failed. *)
Theorem init_effects (s : PCA9685) (m : PCA9685_Modes)
    (driverMode : PCA9685_OutputDriverMode)
    (enabledMode : PCA9685_OutputEnabledMode)
    (disabledMode : PCA9685_OutputDisabledMode)
    (updateMode : PCA9685_ChannelUpdateMode)
    (phaseBalancer : PCA9685_PhaseBalancer) :
  _isProxyAddresser s = false ->
  unsupported_combination driverMode disabledMode = false ->
  let modes := mkModes driverMode enabledMode disabledMode updateMode in
  let addr := 64 + _i2cAddr s mod 64 in
  let ends := wire_ends (_i2cWire s) in
  exists s',
    init s m driverMode enabledMode disabledMode updateMode phaseBalancer
    = Some (s', modes) /\
    _i2cAddr s' = addr /\ _phaseBalancer s' = phaseBalancer /\
    wire_log (_i2cWire s') =
      wire_log (_i2cWire s)
      ++ [EvBegin addr; EvWrite 0; EvWrite 160; EvEnd (u8 (nth 0 ends 0));
          EvBegin addr; EvWrite 1; EvWrite (getMode2Value modes);
          EvEnd (u8 (nth 1 ends 0))] /\
    _lastI2CError s' = u8 (nth 1 ends 0).
Proof.
  intros Hproxy Hsup modes addr ends. unfold init.
  rewrite Hproxy. cbn [_driverMode _disabledMode]. rewrite Hsup.
  assert (Ea : u8 (Z.lor PCA9685_I2C_BASE_MODULE_ADDRESS
                      (Z.land (_i2cAddr s) PCA9685_I2C_BASE_MODULE_ADRMASK))
               = addr).
  { change PCA9685_I2C_BASE_MODULE_ADRMASK with (Z.ones 6).
    rewrite Z.land_ones by lia. change (2 ^ 6) with 64.
    pose proof (Z.mod_pos_bound (_i2cAddr s) 64 ltac:(lia)) as Hr.
    change PCA9685_I2C_BASE_MODULE_ADDRESS with (2 ^ 6).
    rewrite lor_pow2_small by (change (2 ^ 6) with 64; lia).
    change (2 ^ 6) with 64. apply u8_small. lia. }
  rewrite Ea. eexists. split; [reflexivity |].
  rewrite !writeRegister_log.
  cbn [_i2cWire with_wire with_error with_addr with_phaseBalancer wire_ends
       wire_log wire_replies wire_rx _i2cAddr _lastI2CError
       _isProxyAddresser _phaseBalancer].
  fold ends. rewrite <- !hd_nth.
  replace (hd 0 (tl ends)) with (nth 1 ends 0)
    by (destruct ends as [| ? [| ? ?]]; reflexivity).
  repeat split. rewrite <- !app_assoc. reflexivity.
Qed.

Lemma init_effects_witness :
  exists s',
    init (sample_device [] []) (snd (PCA9685_new 64 (mkWire [] [] [] [])))
      PCA9685_OutputDriverMode_TotemPole PCA9685_OutputEnabledMode_Normal
      PCA9685_OutputDisabledMode_Low PCA9685_ChannelUpdateMode_AfterStop
      PCA9685_PhaseBalancer_None
    = Some (s', mkModes PCA9685_OutputDriverMode_TotemPole
                        PCA9685_OutputEnabledMode_Normal
                        PCA9685_OutputDisabledMode_Low
                        PCA9685_ChannelUpdateMode_AfterStop) /\
    _i2cAddr s' = 64.
Proof.
  destruct (init_effects (sample_device [] [])
              (snd (PCA9685_new 64 (mkWire [] [] [] [])))
              PCA9685_OutputDriverMode_TotemPole
              PCA9685_OutputEnabledMode_Normal
              PCA9685_OutputDisabledMode_Low
              PCA9685_ChannelUpdateMode_AfterStop
              PCA9685_PhaseBalancer_None eq_refl eq_refl)
    as (s' & R & Ha & _).
  exists s'. split; [exact R | exact Ha].
Defined.

(** X15: a device object is a controller or a proxy addresser, never both:
    after [initAsProxyAddresser] took effect [init] does nothing, and
    after [init] with a driver mode other than [Undefined]
    [initAsProxyAddresser] does nothing. *)
Theorem init_or_proxy (s : PCA9685) (m : PCA9685_Modes)
    (driverMode : PCA9685_OutputDriverMode)
    (enabledMode : PCA9685_OutputEnabledMode)
    (disabledMode : PCA9685_OutputDisabledMode)
    (updateMode : PCA9685_ChannelUpdateMode)
    (phaseBalancer : PCA9685_PhaseBalancer) :
  (_driverMode m = PCA9685_OutputDriverMode_Undefined ->
   let '(s1, m1) := initAsProxyAddresser s m in
   _isProxyAddresser s1 = true /\
   init s1 m1 driverMode enabledMode disabledMode updateMode phaseBalancer
   = Some (s1, m1)) /\
  (_isProxyAddresser s = false ->
   driverMode <> PCA9685_OutputDriverMode_Undefined ->
   forall s2 m2,
     init s m driverMode enabledMode disabledMode updateMode phaseBalancer
     = Some (s2, m2) ->
     _isProxyAddresser s2 = false /\
     initAsProxyAddresser s2 m2 = (s2, m2)).
Proof.
  split.
  - intros Hu. unfold initAsProxyAddresser. rewrite Hu.
    split; reflexivity.
  - intros Hproxy Hd s2 m2. unfold init. rewrite Hproxy.
    cbn [_driverMode _disabledMode].
    destruct (unsupported_combination driverMode disabledMode);
      [discriminate |].
    intros E. injection E as <- <-.
    split; [rewrite !writeRegister_log; cbn; exact Hproxy |].
    unfold initAsProxyAddresser. cbn [_driverMode].
    destruct driverMode; try reflexivity. now elim Hd.
Qed.

Lemma init_or_proxy_witness :
  init (fst (initAsProxyAddresser (sample_device [] [])
               (snd (PCA9685_new 64 (mkWire [] [] [] [])))))
       (snd (initAsProxyAddresser (sample_device [] [])
               (snd (PCA9685_new 64 (mkWire [] [] [] [])))))
       PCA9685_OutputDriverMode_TotemPole PCA9685_OutputEnabledMode_Normal
       PCA9685_OutputDisabledMode_Low PCA9685_ChannelUpdateMode_AfterStop
       PCA9685_PhaseBalancer_None
  = Some (initAsProxyAddresser (sample_device [] [])
            (snd (PCA9685_new 64 (mkWire [] [] [] [])))).
Proof.
  pose proof (proj1 (init_or_proxy (sample_device [] [])
                       (snd (PCA9685_new 64 (mkWire [] [] [] [])))
                       PCA9685_OutputDriverMode_TotemPole
                       PCA9685_OutputEnabledMode_Normal
                       PCA9685_OutputDisabledMode_Low
                       PCA9685_ChannelUpdateMode_AfterStop
                       PCA9685_PhaseBalancer_None) eq_refl) as H.
  destruct (initAsProxyAddresser (sample_device [] [])
              (snd (PCA9685_new 64 (mkWire [] [] [] [])))) as [s1 m1].
  exact (proj2 H).
Defined.

(** ** Register reads and MODE1 updates *)

Lemma land_255_byte (m : Z) : 0 <= m < 256 -> Z.land m 255 = m.
Proof.
  intros H. change 255 with (Z.ones 8). rewrite Z.land_ones by lia.
  apply Z.mod_small. exact H.
Qed.

(** A register read that succeeds. *)
Lemma readRegister_ok (s : PCA9685) (regAddress m : Z) (more : list Z) :
  u8 (hd 0 (wire_ends (_i2cWire s))) = 0 ->
  hd [] (wire_replies (_i2cWire s)) = m :: more ->
  0 <= m < 256 ->
  readRegister s regAddress =
  (m,
   with_wire (with_error s 0)
     (mkWire (wire_log (_i2cWire s)
              ++ [EvBegin (_i2cAddr s); EvWrite regAddress; EvEnd 0;
                  EvRequest (u8 (_i2cAddr s)) 1 1; EvRead m])
             (tl (wire_ends (_i2cWire s))) (tl (wire_replies (_i2cWire s)))
             [])).
Proof.
  intros Hend Hreply Hm. unfold readRegister.
  unfold i2cWire_endTransmission, i2cWire_write, i2cWire_beginTransmission,
    i2cWire_requestFrom, i2cWire_read.
  cbn [_i2cWire with_wire with_error emit wire_ends wire_log wire_replies
       wire_rx _i2cAddr _lastI2CError _isProxyAddresser _phaseBalancer].
  rewrite Hend, Hreply. cbn [Z.eqb negb].
  change (Z.to_nat 1) with 1%nat. cbn [firstn length].
  change (u8 (Z.of_nat 1) =? 1) with true.
  cbn [negb hd tl _i2cWire with_wire with_error emit wire_ends wire_log
       wire_replies wire_rx _i2cAddr _lastI2CError].
  rewrite land_255_byte by exact Hm.
  rewrite <- !app_assoc. reflexivity.
Qed.

(** A register read to which the device sends no byte. *)
Lemma readRegister_empty (s : PCA9685) (regAddress : Z) :
  u8 (hd 0 (wire_ends (_i2cWire s))) = 0 ->
  hd [] (wire_replies (_i2cWire s)) = [] ->
  readRegister s regAddress =
  (0,
   with_wire (with_error s 4)
     (mkWire (wire_log (_i2cWire s)
              ++ [EvBegin (_i2cAddr s); EvWrite regAddress; EvEnd 0;
                  EvRequest (u8 (_i2cAddr s)) 1 0])
             (tl (wire_ends (_i2cWire s))) (tl (wire_replies (_i2cWire s)))
             [])).
Proof.
  intros Hend Hreply. unfold readRegister.
  unfold i2cWire_endTransmission, i2cWire_write, i2cWire_beginTransmission,
    i2cWire_requestFrom.
  cbn [_i2cWire with_wire with_error emit wire_ends wire_log wire_replies
       wire_rx _i2cAddr _lastI2CError _isProxyAddresser _phaseBalancer].
  rewrite Hend, Hreply. cbn [Z.eqb negb].
  change (Z.to_nat 1) with 1%nat. cbn [firstn length].
  change (u8 (Z.of_nat 0) =? 1) with false.
  change (Z.to_nat (u8 (Z.of_nat 0))) with 0%nat.
  cbn [negb drain hd tl _i2cWire with_wire with_error emit wire_ends wire_log
       wire_replies wire_rx _i2cAddr _lastI2CError].
  rewrite <- !app_assoc. reflexivity.
Qed.

Lemma lor_byte (a b : Z) :
  0 <= a < 256 -> 0 <= b < 256 -> u8 (Z.lor a b) = Z.lor a b.
Proof.
  intros Ha Hb. unfold u8. change 256 with (2 ^ 8).
  rewrite <- Z.land_ones by lia. rewrite Z.land_lor_distr_l.
  change (Z.ones 8) with 255. rewrite !land_255_byte by assumption.
  reflexivity.
Qed.

Lemma hd_tl_nth (l : list Z) : hd 0 (tl l) = nth 1 l 0.
Proof. destruct l as [| ? [| ? ?]]; reflexivity. Qed.

Lemma hd_tl_tl_nth (l : list Z) : hd 0 (tl (tl l)) = nth 2 l 0.
Proof. destruct l as [| ? [| ? [| ? ?]]]; reflexivity. Qed.

(** X16: enabling the all-call address or a sub-address writes the
    address register, reads MODE1 and writes it back with the enable bit
    set and every other bit as read. *)
Theorem enable_address_sets_bit (addrReg mode1Bit : Z) (s : PCA9685)
    (i2cAddress m : Z) (more : list Z) :
  0 <= mode1Bit < 256 ->
  _isProxyAddresser s = false ->
  u8 (nth 1 (wire_ends (_i2cWire s)) 0) = 0 ->
  hd [] (wire_replies (_i2cWire s)) = m :: more -> 0 <= m < 256 ->
  let ends := wire_ends (_i2cWire s) in
  let addr := _i2cAddr s in
  let s' := enable_address addrReg mode1Bit s i2cAddress in
  wire_log (_i2cWire s') =
    wire_log (_i2cWire s)
    ++ [EvBegin addr; EvWrite addrReg;
        EvWrite (u8 (Z.lor 224 (Z.land i2cAddress 254)));
        EvEnd (u8 (nth 0 ends 0));
        EvBegin addr; EvWrite 0; EvEnd 0; EvRequest (u8 addr) 1 1; EvRead m;
        EvBegin addr; EvWrite 0; EvWrite (Z.lor m mode1Bit);
        EvEnd (u8 (nth 2 ends 0))] /\
  _lastI2CError s' = u8 (nth 2 ends 0).
Proof.
  intros Hbit Hproxy Hend Hreply Hm ends addr s'. subst s'.
  unfold enable_address. rewrite Hproxy.
  rewrite writeRegister_log.
  rewrite (readRegister_ok _ PCA9685_MODE1_REG m more);
    [ | cbn [_i2cWire with_wire with_error wire_ends]; fold ends;
        rewrite hd_tl_nth; exact Hend
      | exact Hreply | exact Hm ].
  rewrite writeRegister_log, (lor_byte m mode1Bit) by assumption.
  cbn [_i2cWire with_wire with_error wire_ends wire_log wire_replies wire_rx
       _i2cAddr _lastI2CError].
  fold ends addr. rewrite <- !app_assoc. cbn [app].
  rewrite hd_tl_tl_nth, <- hd_nth. split; reflexivity.
Qed.

Lemma enable_address_sets_bit_witness :
  wire_log (_i2cWire (enableSub1Address (sample_device [] [[33]]) 226)) =
  [EvBegin 64; EvWrite 2; EvWrite 226; EvEnd 0;
   EvBegin 64; EvWrite 0; EvEnd 0; EvRequest 64 1 1; EvRead 33;
   EvBegin 64; EvWrite 0; EvWrite 41; EvEnd 0].
Proof.
  exact (proj1 (enable_address_sets_bit PCA9685_SUBADR1_REG
                  PCA9685_MODE1_SUBADR1 (sample_device [] [[33]]) 226 33 []
                  ltac:(unfold PCA9685_MODE1_SUBADR1; lia) eq_refl eq_refl
                  eq_refl ltac:(lia))).
Defined.

(** X17: when the device sends no byte for the read of MODE1, enabling
    the all-call address or a sub-address still writes MODE1, with the
    enable bit alone: every other bit of the register is cleared. *)
Theorem enable_address_after_failed_read (addrReg mode1Bit : Z)
    (s : PCA9685) (i2cAddress : Z) :
  0 <= mode1Bit < 256 ->
  _isProxyAddresser s = false ->
  u8 (nth 1 (wire_ends (_i2cWire s)) 0) = 0 ->
  hd [] (wire_replies (_i2cWire s)) = [] ->
  let ends := wire_ends (_i2cWire s) in
  let addr := _i2cAddr s in
  let s' := enable_address addrReg mode1Bit s i2cAddress in
  wire_log (_i2cWire s') =
    wire_log (_i2cWire s)
    ++ [EvBegin addr; EvWrite addrReg;
        EvWrite (u8 (Z.lor 224 (Z.land i2cAddress 254)));
        EvEnd (u8 (nth 0 ends 0));
        EvBegin addr; EvWrite 0; EvEnd 0; EvRequest (u8 addr) 1 0;
        EvBegin addr; EvWrite 0; EvWrite mode1Bit;
        EvEnd (u8 (nth 2 ends 0))] /\
  _lastI2CError s' = u8 (nth 2 ends 0).
Proof.
  intros Hbit Hproxy Hend Hreply ends addr s'. subst s'.
  unfold enable_address. rewrite Hproxy.
  rewrite writeRegister_log.
  rewrite (readRegister_empty _ PCA9685_MODE1_REG);
    [ | cbn [_i2cWire with_wire with_error wire_ends]; fold ends;
        rewrite hd_tl_nth; exact Hend
      | exact Hreply ].
  rewrite writeRegister_log. rewrite Z.lor_0_l, (u8_small mode1Bit) by lia.
  cbn [_i2cWire with_wire with_error wire_ends wire_log wire_replies wire_rx
       _i2cAddr _lastI2CError].
  fold ends addr. rewrite <- !app_assoc. cbn [app].
  rewrite hd_tl_tl_nth, <- hd_nth. split; reflexivity.
Qed.

Lemma enable_address_after_failed_read_witness :
  wire_log (_i2cWire (enableAllCallAddress (sample_device [] []) 224)) =
  [EvBegin 64; EvWrite 5; EvWrite 224; EvEnd 0;
   EvBegin 64; EvWrite 0; EvEnd 0; EvRequest 64 1 0;
   EvBegin 64; EvWrite 0; EvWrite 1; EvEnd 0].
Proof.
  exact (proj1 (enable_address_after_failed_read PCA9685_ALLCALL_REG
                  PCA9685_MODE1_ALLCALL (sample_device [] []) 224
                  ltac:(unfold PCA9685_MODE1_ALLCALL; lia) eq_refl eq_refl
                  eq_refl)).
Defined.

Lemma land_byte (m x : Z) : 0 <= m < 256 -> u8 (Z.land m x) = Z.land m x.
Proof.
  intros Hm. unfold u8. change 256 with (2 ^ 8).
  rewrite <- Z.land_ones by lia. change (Z.ones 8) with 255.
  rewrite <- Z.land_assoc, (Z.land_comm x 255), Z.land_assoc.
  rewrite land_255_byte by exact Hm. reflexivity.
Qed.

(** X18: disabling the all-call address or a sub-address reads MODE1 and
    writes it back with the enable bit cleared and every other bit as
    read; when the device sends no byte for the read, it writes MODE1
    as 0. *)
Theorem disable_address_clears_bit (mode1Bit : Z) (s : PCA9685) :
  _isProxyAddresser s = false ->
  u8 (nth 0 (wire_ends (_i2cWire s)) 0) = 0 ->
  let ends := wire_ends (_i2cWire s) in
  let addr := _i2cAddr s in
  let s' := disable_address mode1Bit s in
  (forall m more,
     hd [] (wire_replies (_i2cWire s)) = m :: more -> 0 <= m < 256 ->
     wire_log (_i2cWire s') =
       wire_log (_i2cWire s)
       ++ [EvBegin addr; EvWrite 0; EvEnd 0; EvRequest (u8 addr) 1 1;
           EvRead m;
           EvBegin addr; EvWrite 0; EvWrite (Z.land m (Z.lnot mode1Bit));
           EvEnd (u8 (nth 1 ends 0))]) /\
  (hd [] (wire_replies (_i2cWire s)) = [] ->
   wire_log (_i2cWire s') =
     wire_log (_i2cWire s)
     ++ [EvBegin addr; EvWrite 0; EvEnd 0; EvRequest (u8 addr) 1 0;
         EvBegin addr; EvWrite 0; EvWrite 0; EvEnd (u8 (nth 1 ends 0))]).
Proof.
  intros Hproxy Hend ends addr s'. subst s'.
  unfold disable_address. rewrite Hproxy.
  rewrite <- hd_nth in Hend.
  split.
  - intros m more Hreply Hm.
    rewrite (readRegister_ok _ PCA9685_MODE1_REG m more) by assumption.
    rewrite writeRegister_log, land_byte by exact Hm.
    cbn [_i2cWire with_wire with_error wire_ends wire_log wire_replies
         wire_rx _i2cAddr _lastI2CError].
    fold ends addr. rewrite <- !app_assoc. cbn [app].
    rewrite hd_tl_nth. reflexivity.
  - intros Hreply.
    rewrite (readRegister_empty _ PCA9685_MODE1_REG) by assumption.
    rewrite writeRegister_log. rewrite Z.land_0_l.
    change (u8 0) with 0.
    cbn [_i2cWire with_wire with_error wire_ends wire_log wire_replies
         wire_rx _i2cAddr _lastI2CError].
    fold ends addr. rewrite <- !app_assoc. cbn [app].
    rewrite hd_tl_nth. reflexivity.
Qed.

Lemma disable_address_clears_bit_witness :
  wire_log (_i2cWire (disableSub1Address (sample_device [] [[255]]))) =
  [EvBegin 64; EvWrite 0; EvEnd 0; EvRequest 64 1 1; EvRead 255;
   EvBegin 64; EvWrite 0; EvWrite 247; EvEnd 0].
Proof.
  exact (proj1 (disable_address_clears_bit PCA9685_MODE1_SUBADR1
                  (sample_device [] [[255]]) eq_refl eq_refl)
               255 [] eq_refl ltac:(lia)).
Defined.

(** ** PWM frequency *)

(** The two MODE1 values of the sleep and wake sequence, for a byte
    read from MODE1. *)
Lemma sleep_value (m : Z) :
  0 <= m < 256 ->
  u8 (Z.lor (Z.land m (Z.lnot PCA9685_MODE1_RESTART)) PCA9685_MODE1_SLEEP)
  = Z.lor (Z.land m 127) 16.
Proof.
  intros Hm. apply Z.eqb_eq.
  apply (forall_byte
           (fun a =>
              u8 (Z.lor (Z.land a (Z.lnot PCA9685_MODE1_RESTART))
                        PCA9685_MODE1_SLEEP)
              =? Z.lor (Z.land a 127) 16));
    [vm_compute; reflexivity | exact Hm].
Qed.

Lemma wake_value (m : Z) :
  0 <= m < 256 ->
  u8 (Z.lor (Z.land (Z.lor (Z.land m 127) 16)
                    (Z.lnot PCA9685_MODE1_SLEEP))
            PCA9685_MODE1_RESTART)
  = Z.lor (Z.land m 111) 128.
Proof.
  intros Hm. apply Z.eqb_eq.
  apply (forall_byte
           (fun a =>
              u8 (Z.lor (Z.land (Z.lor (Z.land a 127) 16)
                                (Z.lnot PCA9685_MODE1_SLEEP))
                        PCA9685_MODE1_RESTART)
              =? Z.lor (Z.land a 111) 128));
    [vm_compute; reflexivity | exact Hm].
Qed.

(** The bus calls of [setPWMFrequency] when MODE1 can be read. *)
Lemma setPWMFrequency_log (t : Target) (s : PCA9685)
    (pwmFrequency : F32.float) (m : Z) (more : list Z) :
  F32.ltb pwmFrequency (F32.of_Z 0) = false ->
  _isProxyAddresser s = false ->
  u8 (nth 0 (wire_ends (_i2cWire s)) 0) = 0 ->
  hd [] (wire_replies (_i2cWire s)) = m :: more -> 0 <= m < 256 ->
  let ends := wire_ends (_i2cWire s) in
  let addr := _i2cAddr s in
  wire_log (_i2cWire (setPWMFrequency t s pwmFrequency)) =
    wire_log (_i2cWire s)
    ++ [EvBegin addr; EvWrite 0; EvEnd 0; EvRequest (u8 addr) 1 1; EvRead m;
        EvBegin addr; EvWrite 0; EvWrite (Z.lor (Z.land m 127) 16);
        EvEnd (u8 (nth 1 ends 0));
        EvBegin addr; EvWrite 254;
        EvWrite (u8 (preScalerVal_of t pwmFrequency));
        EvEnd (u8 (nth 2 ends 0));
        EvBegin addr; EvWrite 0; EvWrite (Z.lor (Z.land m 111) 128);
        EvEnd (u8 (nth 3 ends 0))].
Proof.
  intros Hf Hproxy Hend Hreply Hm ends addr.
  unfold setPWMFrequency. rewrite Hf, Hproxy. cbn [orb].
  rewrite <- hd_nth in Hend.
  rewrite (readRegister_ok _ PCA9685_MODE1_REG m more) by assumption.
  rewrite sleep_value by exact Hm. rewrite wake_value by exact Hm.
  rewrite !writeRegister_log.
  cbn [_i2cWire with_wire with_error wire_ends wire_log wire_replies
       wire_rx _i2cAddr _lastI2CError].
  fold ends addr. rewrite <- !app_assoc. cbn [app].
  rewrite hd_tl_nth, hd_tl_tl_nth.
  replace (hd 0 (tl (tl (tl ends)))) with (nth 3 ends 0)
    by (destruct ends as [| ? [| ? [| ? [| ? ?]]]]; reflexivity).
  reflexivity.
Qed.

Lemma preScalerVal_range (t : Target) (pwmFrequency : F32.float) :
  3 <= preScalerVal_of t pwmFrequency <= 255.
Proof.
  unfold preScalerVal_of.
  set (v := sint t _).
  destruct (Z.gtb_spec v 255) as [G | G].
  - change (255 <? 3) with false. cbn iota. lia.
  - destruct (Z.ltb_spec v 3); lia.
Qed.

Lemma at_least_one_not_negative (f : F32.float) :
  F32.leb (F32.of_Z 1) f = true -> F32.ltb f (F32.of_Z 0) = false.
Proof.
  unfold F32.leb, F32.ltb.
  change (F32.of_Z 1) with (F32.mk 1 0). change (F32.of_Z 0) with (F32.mk 0 0).
  cbn [F32.mant F32.expo]. intros H.
  apply negb_true_iff, Z.ltb_ge in H. apply Z.ltb_ge.
  rewrite Z.mul_0_l.
  assert (Hpos : 0 < F32.mant f).
  { assert (P1 : 0 < 2 ^ (F32.expo f - Z.min (F32.expo f) 0))
      by (apply Z.pow_pos_nonneg; lia).
    assert (P2 : 0 < 2 ^ (0 - Z.min (F32.expo f) 0))
      by (apply Z.pow_pos_nonneg; lia).
    nia. }
  apply Z.mul_nonneg_nonneg; [lia |].
  apply Z.pow_nonneg. lia.
Qed.

(** X19: for a frequency of 1 Hz or more, on a device that is not a proxy
    addresser and whose MODE1 can be read, setting the PWM frequency
    puts the chip to sleep with restart cleared, programs a prescaler
    between 3 and 255, and wakes the chip with restart set; the other
    MODE1 bits go back as they were read. *)
Theorem setPWMFrequency_sequence (t : Target) (s : PCA9685)
    (pwmFrequency : F32.float) (m : Z) (more : list Z) :
  F32.leb (F32.of_Z 1) pwmFrequency = true ->
  _isProxyAddresser s = false ->
  u8 (nth 0 (wire_ends (_i2cWire s)) 0) = 0 ->
  hd [] (wire_replies (_i2cWire s)) = m :: more -> 0 <= m < 256 ->
  let ends := wire_ends (_i2cWire s) in
  let addr := _i2cAddr s in
  exists preScalerVal,
    3 <= preScalerVal <= 255 /\
    wire_log (_i2cWire (setPWMFrequency t s pwmFrequency)) =
      wire_log (_i2cWire s)
      ++ [EvBegin addr; EvWrite 0; EvEnd 0; EvRequest (u8 addr) 1 1;
          EvRead m;
          EvBegin addr; EvWrite 0; EvWrite (Z.lor (Z.land m 127) 16);
          EvEnd (u8 (nth 1 ends 0));
          EvBegin addr; EvWrite 254; EvWrite preScalerVal;
          EvEnd (u8 (nth 2 ends 0));
          EvBegin addr; EvWrite 0; EvWrite (Z.lor (Z.land m 111) 128);
          EvEnd (u8 (nth 3 ends 0))].
Proof.
  intros Hf Hproxy Hend Hreply Hm ends addr.
  pose proof (preScalerVal_range t pwmFrequency) as Hp.
  exists (preScalerVal_of t pwmFrequency). split; [exact Hp |].
  rewrite (setPWMFrequency_log t s pwmFrequency m more)
    by (assumption || apply at_least_one_not_negative; assumption).
  fold ends addr.
  rewrite (u8_small (preScalerVal_of t pwmFrequency)) by lia. reflexivity.
Qed.

Lemma setPWMFrequency_sequence_witness :
  exists preScalerVal,
    3 <= preScalerVal <= 255 /\
    wire_log (_i2cWire (setPWMFrequency AVR (sample_device [] [[33]])
                          (F32.of_Z 1000))) =
      [EvBegin 64; EvWrite 0; EvEnd 0; EvRequest 64 1 1; EvRead 33;
       EvBegin 64; EvWrite 0; EvWrite 49; EvEnd 0;
       EvBegin 64; EvWrite 254; EvWrite preScalerVal; EvEnd 0;
       EvBegin 64; EvWrite 0; EvWrite 161; EvEnd 0].
Proof.
  exact (setPWMFrequency_sequence AVR (sample_device [] [[33]])
           (F32.of_Z 1000) 33 [] eq_refl eq_refl eq_refl eq_refl
           ltac:(lia)).
Defined.

(** X20: the two presets program fixed prescalers on both targets: the
    servo setting (50 Hz) writes 121 to the prescale register, the LED
    setting (60 Hz) writes 100. *)
Theorem setPWMFreq_presets (t : Target) (s : PCA9685) (m : Z)
    (more : list Z) :
  _isProxyAddresser s = false ->
  u8 (nth 0 (wire_ends (_i2cWire s)) 0) = 0 ->
  hd [] (wire_replies (_i2cWire s)) = m :: more -> 0 <= m < 256 ->
  nth 10 (new_events s (setPWMFreqServo t s)) (EvEnd 0) = EvWrite 254 /\
  nth 11 (new_events s (setPWMFreqServo t s)) (EvEnd 0) = EvWrite 121 /\
  nth 10 (new_events s (setPWMFreqLED t s)) (EvEnd 0) = EvWrite 254 /\
  nth 11 (new_events s (setPWMFreqLED t s)) (EvEnd 0) = EvWrite 100.
Proof.
  intros Hproxy Hend Hreply Hm.
  unfold setPWMFreqServo, setPWMFreqLED, new_events.
  rewrite !(setPWMFrequency_log t s _ m more)
    by (assumption || reflexivity).
  rewrite !skipn_app, !skipn_all, !Nat.sub_diag.
  cbn [app skipn nth].
  replace (u8 (preScalerVal_of t (F32.of_Z 50))) with 121
    by (destruct t; vm_compute; reflexivity).
  replace (u8 (preScalerVal_of t (F32.of_Z 60))) with 100
    by (destruct t; vm_compute; reflexivity).
  repeat split.
Qed.

Lemma setPWMFreq_presets_witness :
  nth 11 (new_events (sample_device [] [[33]])
            (setPWMFreqServo AVR (sample_device [] [[33]]))) (EvEnd 0)
  = EvWrite 121.
Proof.
  exact (proj1 (proj2 (setPWMFreq_presets AVR (sample_device [] [[33]]) 33 []
                         eq_refl eq_refl eq_refl ltac:(lia)))).
Defined.

(** The three MODE1 values of the external clock sequence. *)
Lemma extclk_values (m : Z) :
  0 <= m < 256 ->
  let v1 :=
    u8 (Z.lor (Z.land m (Z.lnot PCA9685_MODE1_RESTART))
              PCA9685_MODE1_SLEEP) in
  let v2 := u8 (Z.lor v1 PCA9685_MODE1_EXTCLK) in
  let v3 :=
    u8 (Z.lor (Z.land v2 (Z.lnot PCA9685_MODE1_SLEEP))
              PCA9685_MODE1_RESTART) in
  v1 = Z.lor (Z.land m 127) 16 /\
  v2 = Z.lor (Z.land m 127) 80 /\
  v3 = Z.lor (Z.land m 47) 192.
Proof.
  intros Hm.
  pose proof
    (forall_byte
       (fun a =>
          let v1 :=
            u8 (Z.lor (Z.land a (Z.lnot PCA9685_MODE1_RESTART))
                      PCA9685_MODE1_SLEEP) in
          let v2 := u8 (Z.lor v1 PCA9685_MODE1_EXTCLK) in
          let v3 :=
            u8 (Z.lor (Z.land v2 (Z.lnot PCA9685_MODE1_SLEEP))
                      PCA9685_MODE1_RESTART) in
          (v1 =? Z.lor (Z.land a 127) 16)
          && (v2 =? Z.lor (Z.land a 127) 80)
          && (v3 =? Z.lor (Z.land a 47) 192))
       ltac:(vm_compute; reflexivity) m Hm) as H.
  cbn zeta in H. apply andb_true_iff in H. destruct H as [H H3].
  apply andb_true_iff in H. destruct H as [H1 H2].
  apply Z.eqb_eq in H1, H2, H3. cbn zeta. repeat split; assumption.
Qed.

(** X21: switching to the external clock reads MODE1 and writes it three
    times: asleep with restart cleared, then with the external clock bit
    added, then awake with restart and external clock set; the low four
    bits and auto-increment go back as they were read.  A proxy
    addresser is not excluded. *)
Theorem enableExtClockLine_sequence (s : PCA9685) (m : Z) (more : list Z) :
  u8 (nth 0 (wire_ends (_i2cWire s)) 0) = 0 ->
  hd [] (wire_replies (_i2cWire s)) = m :: more -> 0 <= m < 256 ->
  let ends := wire_ends (_i2cWire s) in
  let addr := _i2cAddr s in
  wire_log (_i2cWire (enableExtClockLine s)) =
    wire_log (_i2cWire s)
    ++ [EvBegin addr; EvWrite 0; EvEnd 0; EvRequest (u8 addr) 1 1; EvRead m;
        EvBegin addr; EvWrite 0; EvWrite (Z.lor (Z.land m 127) 16);
        EvEnd (u8 (nth 1 ends 0));
        EvBegin addr; EvWrite 0; EvWrite (Z.lor (Z.land m 127) 80);
        EvEnd (u8 (nth 2 ends 0));
        EvBegin addr; EvWrite 0; EvWrite (Z.lor (Z.land m 47) 192);
        EvEnd (u8 (nth 3 ends 0))].
Proof.
  intros Hend Hreply Hm ends addr.
  unfold enableExtClockLine.
  rewrite <- hd_nth in Hend.
  rewrite (readRegister_ok _ PCA9685_MODE1_REG m more) by assumption.
  destruct (extclk_values m Hm) as (E1 & E2 & E3). cbn zeta in E1, E2, E3.
  rewrite E3, E2, E1.
  rewrite !writeRegister_log.
  cbn [_i2cWire with_wire with_error wire_ends wire_log wire_replies
       wire_rx _i2cAddr _lastI2CError].
  fold ends addr. rewrite <- !app_assoc. cbn [app].
  rewrite hd_tl_nth, hd_tl_tl_nth.
  replace (hd 0 (tl (tl (tl ends)))) with (nth 3 ends 0)
    by (destruct ends as [| ? [| ? [| ? [| ? ?]]]]; reflexivity).
  reflexivity.
Qed.

Lemma enableExtClockLine_sequence_witness :
  wire_log (_i2cWire (enableExtClockLine (sample_device [] [[33]]))) =
  [EvBegin 64; EvWrite 0; EvEnd 0; EvRequest 64 1 1; EvRead 33;
   EvBegin 64; EvWrite 0; EvWrite 49; EvEnd 0;
   EvBegin 64; EvWrite 0; EvWrite 113; EvEnd 0;
   EvBegin 64; EvWrite 0; EvWrite 225; EvEnd 0].
Proof.
  exact (enableExtClockLine_sequence (sample_device [] [[33]]) 33 []
           eq_refl eq_refl ltac:(lia)).
Defined.

(** ** Servo evaluators *)

(** X22: whenever the three point constructor settles on the linear
    model, it builds the evaluator of the two point constructor for its
    end points. *)
Theorem ServoEval3_linear_is_ServoEval2
    (minPWMAmount midPWMAmount maxPWMAmount : Z) :
  _isCSpline (ServoEval3 minPWMAmount midPWMAmount maxPWMAmount) = false ->
  ServoEval3 minPWMAmount midPWMAmount maxPWMAmount
  = ServoEval2 minPWMAmount maxPWMAmount.
Proof.
  unfold ServoEval3, ServoEval2, PCA9685_PWM_FULL.
  set (lo := Z.min (Z.max minPWMAmount 0) 4096).
  set (mi := Z.min (Z.max midPWMAmount lo) 4096).
  set (hi := Z.min (Z.max maxPWMAmount mi) 4096).
  destruct (Z.eqb_spec (hi - mi) (mi - lo)) as [E | N]; cbn [negb].
  - intros _.
    replace (Z.min (Z.max maxPWMAmount lo) 4096) with hi
      by (unfold hi, mi, lo in *; lia).
    reflexivity.
  - cbn [_isCSpline]. discriminate.
Qed.

Lemma ServoEval3_linear_is_ServoEval2_witness :
  ServoEval3 102 307 512 = ServoEval2 102 512.
Proof.
  apply (ServoEval3_linear_is_ServoEval2 102 307 512). reflexivity.
Defined.

(** A property checked on every value up to 4096 holds for each. *)
Lemma forall_pwm (P : Z -> bool) :
  forallb P (map Z.of_nat (seq 0 4097)) = true ->
  forall a, 0 <= a <= 4096 -> P a = true.
Proof.
  intros H a Ha. rewrite forallb_forall in H. apply H.
  apply in_map_iff. exists (Z.to_nat a). split; [lia |].
  apply in_seq. lia.
Qed.

(** The last step of [pwmForAngle] returns a PWM amount that entered as
    a float unchanged, also after the sum with zero terms. *)
Lemma pwm_float_exact (a : Z) :
  0 <= a <= 4096 ->
  F32.add (F32.of_Z a) F32.zero = F32.of_Z a /\
  u16 (Z.min (Z.max (u16 (F32.trunc (F32.roundf (F32.of_Z a)))) 0)
             PCA9685_PWM_FULL) = a.
Proof.
  intros Ha.
  pose proof
    (forall_pwm
       (fun a =>
          let x := F32.add (F32.of_Z a) F32.zero in
          (F32.mant x =? F32.mant (F32.of_Z a))
          && (F32.expo x =? F32.expo (F32.of_Z a))
          && (u16 (Z.min (Z.max (u16 (F32.trunc (F32.roundf (F32.of_Z a))))
                                0) PCA9685_PWM_FULL) =? a))
       ltac:(vm_compute; reflexivity) a Ha) as H.
  cbn zeta in H. apply andb_true_iff in H. destruct H as [H H3].
  apply andb_true_iff in H. destruct H as [H1 H2].
  apply Z.eqb_eq in H1, H2, H3. split; [| exact H3].
  destruct (F32.add (F32.of_Z a) F32.zero) as [m1 e1].
  destruct (F32.of_Z a) as [m2 e2]. cbn in H1, H2. congruence.
Qed.

Lemma mul_zero_r (x y : F32.float) :
  F32.mant y = 0 -> F32.mul x y = F32.zero.
Proof.
  intros Hy. unfold F32.mul, F32.round. rewrite Hy, Z.mul_0_r.
  reflexivity.
Qed.

Lemma mul_zero_l (y : F32.float) : F32.mul F32.zero y = F32.zero.
Proof. unfold F32.mul, F32.round. cbn [F32.mant F32.zero]. reflexivity. Qed.

(** An angle whose shifted value is not above zero is constrained to a
    zero angle. *)
Lemma constrained_zero (angle : F32.float) :
  F32.ltb (F32.of_Z 0) (F32.add angle (F32.of_Z 90)) = false ->
  let amt := F32.add angle (F32.of_Z 90) in
  F32.mant
    (if F32.ltb amt (F32.of_Z 0) then F32.of_Z 0
     else if F32.ltb (F32.of_Z 180) amt then F32.of_Z 180
     else amt) = 0.
Proof.
  intros H amt. fold amt in H.
  destruct (F32.ltb amt (F32.of_Z 0)) eqn:Hneg; [reflexivity |].
  assert (Hm : F32.mant amt = 0).
  { unfold F32.ltb in H, Hneg.
    change (F32.of_Z 0) with (F32.mk 0 0) in H, Hneg.
    cbn [F32.mant F32.expo] in H, Hneg.
    rewrite Z.mul_0_l in H, Hneg.
    apply Z.ltb_ge in H, Hneg.
    assert (P1 : 0 < 2 ^ (F32.expo amt - Z.min 0 (F32.expo amt)))
      by (apply Z.pow_pos_nonneg; lia).
    assert (P2 : 0 < 2 ^ (F32.expo amt - Z.min (F32.expo amt) 0))
      by (apply Z.pow_pos_nonneg; lia).
    nia. }
  assert (H180 : F32.ltb (F32.of_Z 180) amt = false).
  { unfold F32.ltb. rewrite Hm, Z.mul_0_l.
    change (F32.of_Z 180) with (F32.mk 45 2). cbn [F32.mant F32.expo].
    apply Z.ltb_ge.
    apply Z.mul_nonneg_nonneg; [lia | apply Z.pow_nonneg; lia]. }
  rewrite H180. exact Hm.
Qed.

Lemma leb_ninety (x : F32.float) :
  F32.mant x = 0 -> F32.leb x (F32.of_Z 90) = true.
Proof.
  intros Hx. unfold F32.leb, F32.ltb. rewrite Hx, Z.mul_0_l.
  change (F32.of_Z 90) with (F32.mk 45 1). cbn [F32.mant F32.expo].
  apply negb_true_iff, Z.ltb_ge.
  apply Z.mul_nonneg_nonneg; [lia | apply Z.pow_nonneg; lia].
Qed.

(** X23: at the low end every evaluator returns its (clamped) minimum
    calibration value: for the two point and the three point
    constructor alike, linear or spline, an angle of -90 degrees or
    less maps to the minimum PWM amount. *)
Theorem pwmForAngle_low_end (minPWMAmount midPWMAmount maxPWMAmount : Z)
    (angle : F32.float) :
  F32.ltb (F32.of_Z 0) (F32.add angle (F32.of_Z 90)) = false ->
  let lowest := Z.min (Z.max minPWMAmount 0) 4096 in
  pwmForAngle (ServoEval2 minPWMAmount maxPWMAmount) angle = lowest /\
  pwmForAngle (ServoEval3 minPWMAmount midPWMAmount maxPWMAmount) angle
  = lowest.
Proof.
  intros Hangle lowest.
  pose proof (constrained_zero angle Hangle) as Hz. cbn zeta in Hz.
  assert (Hlow : 0 <= lowest <= 4096) by (unfold lowest; lia).
  destruct (pwm_float_exact lowest Hlow) as [Hadd Hfin].
  assert (Hlin :
            forall slope,
              pwmForAngle
                (mkServoEval [F32.of_Z lowest; slope] false) angle
              = lowest).
  { intros slope. unfold pwmForAngle. cbn [_isCSpline negb coeff _coeff nth].
    rewrite mul_zero_r by exact Hz. rewrite Hadd. exact Hfin. }
  split.
  - unfold ServoEval2. apply Hlin.
  - unfold ServoEval3. fold lowest.
    unfold PCA9685_PWM_FULL. fold lowest.
    destruct (negb (_ =? _)); [| apply Hlin].
    unfold pwmForAngle. cbn [_isCSpline negb coeff _coeff nth].
    rewrite leb_ninety by exact Hz.
    rewrite !(mul_zero_r _ _ Hz), !Hadd. exact Hfin.
Qed.

Lemma pwmForAngle_low_end_witness :
  pwmForAngle (ServoEval3 102 300 512) (F32.of_Z (-120)) = 102.
Proof.
  exact (proj2 (pwmForAngle_low_end 102 300 512 (F32.of_Z (-120)) eq_refl)).
Defined.

(** X24: a two point evaluator whose maximum is not above its minimum is
    flat: every angle maps to the (clamped) minimum PWM amount. *)
Theorem ServoEval2_flat (minPWMAmount maxPWMAmount : Z) (angle : F32.float) :
  maxPWMAmount <= minPWMAmount ->
  pwmForAngle (ServoEval2 minPWMAmount maxPWMAmount) angle
  = Z.min (Z.max minPWMAmount 0) 4096.
Proof.
  intros Hle. unfold ServoEval2, PCA9685_PWM_FULL.
  set (lowest := Z.min (Z.max minPWMAmount 0) 4096).
  replace (Z.min (Z.max maxPWMAmount lowest) 4096 - lowest) with 0
    by (unfold lowest; lia).
  change (F32.div (F32.of_Z 0) (F32.of_Z 180)) with F32.zero.
  assert (Hlow : 0 <= lowest <= 4096) by (unfold lowest; lia).
  destruct (pwm_float_exact lowest Hlow) as [Hadd Hfin].
  unfold pwmForAngle. cbn [_isCSpline negb coeff _coeff nth].
  rewrite mul_zero_l, Hadd. exact Hfin.
Qed.

Lemma ServoEval2_flat_witness :
  pwmForAngle (ServoEval2 500 100) (F32.of_Z 37) = 500.
Proof.
  apply (ServoEval2_flat 500 100 (F32.of_Z 37)). lia.
Defined.
